(** * SMILES-to: the conversion function and the interactive loop of main.py

    The program drives an external cheminformatics toolkit.  The toolkit is
    an interface here ([Toolkit]); the program's own control flow, its
    messages, its defaults and its exception handlers are embedded as they
    are written in [main.py]. *)

From Stdlib Require Import ZArith Ascii String List DecimalString.
From stdpp Require Import base gmap strings list.
Import ListNotations.

Local Open Scope string_scope.
Local Open Scope Z_scope.

(** ** Python strings

    A [str] is a Rocq [string]; a character is read as a code point
    below 256. *)

Module PyStr.

Definition code (c : ascii) : nat := nat_of_ascii c.

(** [str.isspace] on one character: 9-13, 28-31, 32, 0x85 and 0xA0. *)
Definition isspace (c : ascii) : bool :=
  let n := code c in
  ((9 <=? n) && (n <=? 13) || (28 <=? n) && (n <=? 32)
   || (n =? 133) || (n =? 160))%nat.

Fixpoint lstrip (s : string) : string :=
  match s with
  | String c s' => if isspace c then lstrip s' else s
  | EmptyString => EmptyString
  end.

(** [rstrip] keeps a character when it is not a space or when something
    is left after it. *)
Fixpoint rstrip (s : string) : string :=
  match s with
  | String c s' =>
      match rstrip s' with
      | EmptyString => if isspace c then EmptyString else String c EmptyString
      | r => String c r
      end
  | EmptyString => EmptyString
  end.

(** [s.strip()] *)
Definition strip (s : string) : string := rstrip (lstrip s).

Definition map_chars (f : ascii -> ascii) : string -> string :=
  fix go s :=
    match s with
    | String c s' => String (f c) (go s')
    | EmptyString => EmptyString
    end.

Definition lower_char (c : ascii) : ascii :=
  let n := code c in
  if ((65 <=? n) && (n <=? 90)
      || (192 <=? n) && (n <=? 222) && negb (n =? 215))%nat
  then ascii_of_nat (n + 32) else c.

(** [s.lower()] *)
Definition lower : string -> string := map_chars lower_char.

(** [s.upper()]; the capital of 0xDF is two letters, those of 0xB5 and
    0xFF lie above 255 and the characters are kept. *)
Fixpoint upper (s : string) : string :=
  match s with
  | String c s' =>
      let n := code c in
      if ((97 <=? n) && (n <=? 122)
          || (224 <=? n) && (n <=? 254) && negb (n =? 247))%nat
      then String (ascii_of_nat (n - 32)) (upper s')
      else if (n =? 223)%nat then String "S" (String "S" (upper s'))
      else String c (upper s')
  | EmptyString => EmptyString
  end.

(** [s.endswith(suffix)]: [suffix] is [s] or ends the rest of [s]. *)
Fixpoint endswith (s suffix : string) : bool :=
  String.eqb s suffix
  || match s with
     | String _ s' => endswith s' suffix
     | EmptyString => false
     end.

(** [x in [a, b, ...]] for strings *)
Definition in_list (x : string) (l : list string) : bool :=
  existsb (String.eqb x) l.

(** [s * n] *)
Fixpoint times (s : string) (n : nat) : string :=
  match n with
  | O => EmptyString
  | S n' => s +:+ times s n'
  end.

Definition nl : string := String (ascii_of_nat 10) EmptyString.

(** [str(n)] for an integer, as an f-string prints it *)
Definition str_Z (z : Z) : string := NilZero.string_of_int (Z.to_int z).
Definition str_nat (n : nat) : string := str_Z (Z.of_nat n).

Definition is_digit (c : ascii) : bool :=
  ((48 <=? code c) && (code c <=? 57))%nat.

Definition digit_val (c : ascii) : Z := Z.of_nat (code c - 48).

(** The digits of an integer literal: a digit first, then digits, each
    optionally preceded by one underscore. [after_digit] tells whether
    the character before was a digit. *)
Fixpoint digits (acc : Z) (after_digit : bool) (s : string) : option Z :=
  match s with
  | EmptyString => if after_digit then Some acc else None
  | String c s' =>
      if is_digit c then digits (10 * acc + digit_val c) true s'
      else if (code c =? 95)%nat && after_digit then
        match s' with
        | String d _ => if is_digit d then digits acc false s' else None
        | EmptyString => None
        end
      else None
  end.

(** [int(s)]: [None] stands for ValueError. Surrounding space is
    dropped, one sign is allowed. *)
Definition int (s : string) : option Z :=
  match strip s with
  | String "+" r => digits 0 false r
  | String "-" r => Z.opp <$> digits 0 false r
  | r => digits 0 false r
  end.

End PyStr.

Arguments PyStr.strip : simpl never.
Arguments PyStr.lower : simpl never.
Arguments PyStr.upper : simpl never.
Arguments PyStr.endswith : simpl never.
Arguments PyStr.times : simpl never.
Arguments PyStr.str_Z : simpl never.
Arguments PyStr.str_nat : simpl never.
Arguments PyStr.int : simpl never.
Arguments String.append : simpl never.

(** ** The pictographs of the messages

    Each message of the loop starts with a pictograph; they are kept as the
    bytes [main.py] stores. *)

Module Glyph.
Definition of_bytes (l : list nat) : string :=
  string_of_list_ascii (List.map ascii_of_nat l).
(* line 85 *)
Definition microscope : string := of_bytes [239; 163; 191; 195; 188; 195; 174; 194; 168]%nat.
(* lines 105, 176, 180 *)
Definition wave : string := of_bytes [239; 163; 191; 195; 188; 195; 171; 195; 163]%nat.
(* lines 108, 115, 136, 139, 170, 183 *)
Definition cross : string := of_bytes [226; 128; 154; 195; 185; 195; 165]%nat.
(* line 160 *)
Definition cycle : string := of_bytes [239; 163; 191; 195; 188; 195; 174; 195; 145]%nat.
(* line 167 *)
Definition check : string := of_bytes [226; 128; 154; 195; 186; 195; 150]%nat.
(* line 168 *)
Definition folder : string := of_bytes [239; 163; 191; 195; 188; 195; 172; 195; 133]%nat.
End Glyph.

(** ** Exceptions and outcomes

    Two classes matter to the handlers of [main.py]: [KeyboardInterrupt],
    which [except Exception] lets through, and the subclasses of
    [Exception], which carry the text that [str(e)] prints. *)

Inductive exn : Type :=
| KeyboardInterrupt
| Exception (msg : string).

Inductive outcome (A : Type) : Type :=
| Normal (a : A)
| Raised (e : exn).
Arguments Normal {A} a.
Arguments Raised {A} e.

(** ** The external toolkit

    The capability set the program consumes.  A molecule is an object the
    toolkit owns; the operations that work in place give back the state
    the object is left in, whether they return or raise.  The writers act
    on the file system. *)

Inductive EmbedMethod : Type := ETKDG | DefaultEmbedding.

Abbreviation FileSystem := (gmap string string).

Record Toolkit : Type := mkToolkit {
  Mol : Type;
  Image : Type;
  (* Chem.MolFromSmiles: [None] is the failure value *)
  tk_MolFromSmiles : string -> outcome (option Mol);
  (* Chem.MolToSmiles *)
  tk_MolToSmiles : Mol -> outcome string;
  (* mol.GetNumAtoms() *)
  tk_GetNumAtoms : Mol -> nat;
  (* Chem.AddHs: a new molecule *)
  tk_AddHs : Mol -> outcome Mol;
  (* AllChem.Compute2DCoords, in place *)
  tk_Compute2DCoords : Mol -> outcome unit * Mol;
  (* AllChem.EmbedMolecule, in place; -1 is the failure sentinel *)
  tk_EmbedMolecule : Mol -> EmbedMethod -> outcome Z * Mol;
  (* AllChem.MMFFOptimizeMolecule, in place; 0 means converged *)
  tk_MMFFOptimizeMolecule : Mol -> outcome Z * Mol;
  (* Draw.MolToImage(mol, size=(n, n)) *)
  tk_MolToImage : Mol -> Z -> outcome Image;
  (* img.save(path) *)
  tk_save : Image -> string -> FileSystem -> outcome unit * FileSystem;
  (* Chem.MolToPDBFile(mol, path) *)
  tk_MolToPDBFile : Mol -> string -> FileSystem -> outcome unit * FileSystem;
  (* Chem.MolToMolFile(mol, path) *)
  tk_MolToMolFile : Mol -> string -> FileSystem -> outcome unit * FileSystem
}.

(** ** What a run does, in order *)

Definition handle := nat.
Bind Scope nat_scope with handle.

Inductive event : Type :=
| Print (line : string)                      (* print(line) *)
| Prompt (text : string)                     (* the prompt of input(text) *)
| CallMolFromSmiles (smiles : string)
| CallMolToSmiles (mol : handle)
| CallGetNumAtoms (mol : handle)
| CallAddHs (mol : handle)
| CallCompute2DCoords (mol : handle)
| CallEmbedMolecule (mol : handle) (method : EmbedMethod)
| CallMMFFOptimizeMolecule (mol : handle)
| CallMolToImage (mol : handle) (size : Z)
| CallSave (path : string)
| CallMolToPDBFile (mol : handle) (path : string)
| CallMolToMolFile (mol : handle) (path : string).

(** A writer call: one of the three serializers. *)
Definition is_writer (e : event) : bool :=
  match e with
  | CallSave _ | CallMolToPDBFile _ _ | CallMolToMolFile _ _ => true
  | _ => false
  end.

Section Program.

Variable tk : Toolkit.

(** ** The world the program runs in

    The files on disk, the molecule objects alive (a handle is an index
    into [heap]), the lines still to come on standard input (a read may
    also raise) and the events so far. *)
Record World : Type := mkWorld {
  files : FileSystem;
  heap : list (Mol tk);
  stdin : list (outcome string);
  trace : list event
}.

Definition M (A : Type) : Type := World -> outcome A * World.

Definition ret {A} (a : A) : M A := fun w => (Normal a, w).

Definition bind {A B} (m : M A) (k : A -> M B) : M B :=
  fun w =>
    match m w with
    | (Normal a, w') => k a w'
    | (Raised e, w') => (Raised e, w')
    end.

#[global] Instance M_ret : MRet M := @ret.
#[global] Instance M_bind : MBind M := fun A B k m => bind m k.

(** The world after some more events. *)
Definition emit (evs : list event) (w : World) : World :=
  mkWorld (files w) (heap w) (stdin w) (trace w ++ evs)%list.

Definition log (e : event) : M unit := fun w => (Normal tt, emit [e] w).

(** [print(line)].  Standard output is taken to accept every line: the
    write itself does not fail. *)
Definition print (line : string) : M unit := log (Print line).

(** [try: body / except Exception as e: handler(str(e))] *)
Definition try_except {A} (body : M A) (handler : string -> M A) : M A :=
  fun w =>
    match body w with
    | (Raised (Exception msg), w') => handler msg w'
    | r => r
    end.

(** The world with the next input consumed. *)
Definition read_line (w : World) : World :=
  mkWorld (files w) (heap w) (tail (stdin w)) (trace w).

(** [input(text)]: at the end of the input Python raises EOFError. *)
Definition input (text : string) : M string :=
  fun w =>
    (match stdin w with
     | r :: _ => r
     | [] => Raised (Exception "EOF when reading a line")
     end,
     read_line (emit [Prompt text] w)).

(** *** Toolkit calls on the world *)

(** The world with one more object, and with the object behind [h] in
    state [m]. *)
Definition push (m : Mol tk) (w : World) : World :=
  mkWorld (files w) (heap w ++ [m])%list (stdin w) (trace w).

Definition set_mol (h : handle) (m : Mol tk) (w : World) : World :=
  mkWorld (files w) (<[h := m]> (heap w)) (stdin w) (trace w).

(** A new object; its handle is the next free index. *)
Definition alloc (m : Mol tk) : M handle :=
  fun w => (Normal (length (heap w)), push m w).

(** An operation that reads the object behind [h]. *)
Definition with_mol {A} (h : handle) (op : Mol tk -> outcome A) : M A :=
  fun w =>
    match heap w !! h with
    | Some m => (op m, w)
    | None => (Raised (Exception "no such object"), w)
    end.

(** An operation that works in place on the object behind [h]. *)
Definition on_mol {A} (h : handle) (op : Mol tk -> outcome A * Mol tk) : M A :=
  fun w =>
    match heap w !! h with
    | Some m => ((op m).1, set_mol h (op m).2 w)
    | None => (Raised (Exception "no such object"), w)
    end.

(** An operation on the file system. *)
Definition on_files (op : FileSystem -> outcome unit * FileSystem) : M unit :=
  fun w =>
    ((op (files w)).1, mkWorld (op (files w)).2 (heap w) (stdin w) (trace w)).

Definition lift {A} (r : outcome A) : M A := fun w => (r, w).

Definition MolFromSmiles (smiles : string) : M (option handle) :=
  log (CallMolFromSmiles smiles);;
  r ← lift (tk_MolFromSmiles tk smiles);
  match r with
  | Some m => h ← alloc m; mret (Some h)
  | None => mret None
  end.

Definition MolToSmiles (mol : handle) : M string :=
  log (CallMolToSmiles mol);;
  with_mol mol (tk_MolToSmiles tk).

Definition GetNumAtoms (mol : handle) : M nat :=
  log (CallGetNumAtoms mol);;
  with_mol mol (fun m => Normal (tk_GetNumAtoms tk m)).

Definition AddHs (mol : handle) : M handle :=
  log (CallAddHs mol);;
  m' ← with_mol mol (tk_AddHs tk);
  alloc m'.

Definition Compute2DCoords (mol : handle) : M unit :=
  log (CallCompute2DCoords mol);;
  on_mol mol (tk_Compute2DCoords tk).

Definition EmbedMolecule (mol : handle) (method : EmbedMethod) : M Z :=
  log (CallEmbedMolecule mol method);;
  on_mol mol (fun m => tk_EmbedMolecule tk m method).

Definition MMFFOptimizeMolecule (mol : handle) : M Z :=
  log (CallMMFFOptimizeMolecule mol);;
  on_mol mol (tk_MMFFOptimizeMolecule tk).

Definition MolToImage (mol : handle) (size : Z) : M (Image tk) :=
  log (CallMolToImage mol size);;
  with_mol mol (fun m => tk_MolToImage tk m size).

Definition save (img : Image tk) (path : string) : M unit :=
  log (CallSave path);;
  on_files (tk_save tk img path).

Definition MolToPDBFile (mol : handle) (path : string) : M unit :=
  log (CallMolToPDBFile mol path);;
  m ← with_mol mol Normal;
  on_files (tk_MolToPDBFile tk m path).

Definition MolToMolFile (mol : handle) (path : string) : M unit :=
  log (CallMolToMolFile mol path);;
  m ← with_mol mol Normal;
  on_files (tk_MolToMolFile tk m path).

(** [os.path.exists(path) and os.path.getsize(path) > 0] *)
Definition nonempty_file (fs : FileSystem) (path : string) : bool :=
  match fs !! path with
  | Some content => (0 <? String.length content)%nat
  | None => false
  end.

Definition exists_and_nonempty (path : string) : M bool :=
  fun w => (Normal (nonempty_file (files w) path), w).

(** ** convert_smiles *)

Import PyStr.

(** Lines 46-49: the embedding, first with ETKDG. *)
Definition embed_molecule (mol_with_h : handle) : M unit :=
  embed_result ← EmbedMolecule mol_with_h ETKDG;
  if embed_result =? -1 then
    print "First embedding failed, trying alternative method...";;
    _ ← EmbedMolecule mol_with_h DefaultEmbedding;
    mret tt
  else mret tt.

(** Lines 51-55: the minimization. *)
Definition minimize_energy (mol_with_h : handle) : M unit :=
  minimize_result ← MMFFOptimizeMolecule mol_with_h;
  (if negb (minimize_result =? 0) then
     print "Energy minimization may not have fully converged"
   else mret tt);;
  print "3D coordinates generated successfully".

(** Lines 56-59: the handler of the inner [try]. *)
Definition use_2d_coordinates (mol_with_h : handle) (e : string) : M unit :=
  print ("3D coordinate generation warning: " +:+ e);;
  print "Using 2D coordinates...";;
  Compute2DCoords mol_with_h.

(** Lines 44-59: 3D coordinates for [mol_with_h], with the fall back to
    a 2D layout when a step raises. *)
Definition generate_3d_coordinates (mol_with_h : handle) : M unit :=
  print "Generating 3D coordinates...";;
  try_except
    (embed_molecule mol_with_h;;
     minimize_energy mol_with_h)
    (use_2d_coordinates mol_with_h).

(** Lines 26-28: what is printed about the parsed molecule. *)
Definition report_parsed (mol : handle) : M unit :=
  print "Successfully parsed SMILES";;
  formula ← MolToSmiles mol;
  print ("Molecular formula: " +:+ formula);;
  n ← GetNumAtoms mol;
  print ("Number of atoms: " +:+ str_nat n).

(** Lines 63-69: the file, by format. *)
Definition save_molecule (mol_with_h : handle) (output_file output_format : string)
    : M unit :=
  if String.eqb output_format "pdb" then
    print ("Saving as PDB file: " +:+ output_file);;
    MolToPDBFile mol_with_h output_file
  else if String.eqb output_format "mol" then
    print ("Saving as MOL file: " +:+ output_file);;
    MolToMolFile mol_with_h output_file
  else mret tt.

(** Lines 30-69: from the parsed molecule to the output file. *)
Definition write_output (mol : handle) (output_file output_format : string)
    (generate_3d : bool) (image_size : Z) : M unit :=
  if String.eqb output_format "png" then
    print "Generating 2D molecular image...";;
    Compute2DCoords mol;;
    print ("Saving as PNG image: " +:+ output_file +:+ " (" +:+ str_Z image_size
           +:+ "x" +:+ str_Z image_size +:+ "px)");;
    img ← MolToImage mol image_size;
    save img output_file
  else
    mol_with_h ← AddHs mol;
    n ← GetNumAtoms mol_with_h;
    print ("Number of atoms after adding hydrogens: " +:+ str_nat n);;
    (if generate_3d then generate_3d_coordinates mol_with_h
     else Compute2DCoords mol_with_h);;
    save_molecule mol_with_h output_file output_format.

(** Lines 71-76: the check on the output file. *)
Definition check_output (output_file : string) : M bool :=
  ok ← exists_and_nonempty output_file;
  if (ok : bool) then
    print ("Conversion successful: " +:+ output_file);;
    mret true
  else
    print "Output file creation failed";;
    mret false.

(** Lines 78-80: the handler at the function boundary. *)
Definition conversion_failed (e : string) : M bool :=
  print ("Conversion failed: " +:+ e);;
  mret false.

(** Lines 26-69: the steps between the parse and the check. *)
Definition convert_parsed (mol : handle) (output_file output_format : string)
    (generate_3d : bool) (image_size : Z) : M unit :=
  report_parsed mol;;
  write_output mol output_file output_format generate_3d image_size.

Definition convert_smiles (smiles_string output_file output_format : string)
    (generate_3d : bool) (image_size : Z) : M bool :=
  print ("Converting SMILES to " +:+ upper output_format +:+ ": " +:+ smiles_string);;
  try_except
    (print ("Parsing SMILES: " +:+ smiles_string);;
     mol ← MolFromSmiles smiles_string;
     match mol with
     | None =>
         print "Invalid SMILES string";;
         mret false
     | Some mol =>
         convert_parsed mol output_file output_format generate_3d image_size;;
         check_output output_file
     end)
    conversion_failed.

(** ** interactive_conversion *)

(** How an iteration of [while True] ends: [break], or [continue] (also
    when the body runs to its end). *)
Inductive ctl : Type := Break | Continue.

(** [try: body / except KeyboardInterrupt: ... / except Exception as e: ...] *)
Definition try_except_interrupt {A} (body : M A) (on_interrupt : M A)
    (handler : string -> M A) : M A :=
  fun w =>
    match body w with
    | (Raised KeyboardInterrupt, w') => on_interrupt w'
    | (Raised (Exception msg), w') => handler msg w'
    | r => r
    end.

Definition invalid_size : string :=
  Glyph.cross +:+ " Invalid size, using default 200px".

(** Lines 125-140: the image size of the PNG branch. *)
Definition ask_image_size : M Z :=
  print (nl +:+ times "-" 40);;
  print "Enter image size in pixels (e.g., 400 for 400x400px)";;
  print (times "-" 40);;
  line ← input "Image size (px) [default: 200px]: ";
  let size_input := strip line in
  if String.eqb size_input "" then mret 200
  else
    match int size_input with
    | Some image_size =>
        if image_size <=? 0 then
          print invalid_size;;
          mret 200
        else mret image_size
    | None =>
        print invalid_size;;
        mret 200
    end.

(** Lines 119-151: output_format, default_ext, generate_3d, image_size. *)
Definition settings (choice : string) : M (string * string * bool * Z) :=
  if String.eqb choice "5" then
    image_size ← ask_image_size;
    mret ("png", ".png", false, image_size)
  else if in_list choice ["1"; "2"] then
    mret ("pdb", ".pdb", String.eqb choice "1", 200)
  else
    mret ("mol", ".mol", String.eqb choice "3", 200).

(** Lines 154-158: the output file name. *)
Definition ask_output_name (default_ext : string) : M string :=
  line ← input ("Enter output filename (default: output" +:+ default_ext +:+ "): ");
  let output_name := strip line in
  if String.eqb output_name "" then mret ("output" +:+ default_ext)
  else if negb (endswith output_name default_ext) then
    mret (output_name +:+ default_ext)
  else mret output_name.

Definition goodbye : string := nl +:+ Glyph.wave +:+ " Goodbye!".

(** Lines 102-173: the body of the [try] up to the last prompt.  [Some c]
    when the iteration ended early with [c]. *)
Definition before_continue_prompt : M (option ctl) :=
  line ← input "Please select an option (1-6): ";
  let choice := strip line in
  if String.eqb choice "6" then
    print goodbye;;
    mret (Some Break)
  else if negb (in_list choice ["1"; "2"; "3"; "4"; "5"]) then
    print (Glyph.cross +:+ " Invalid choice. Please select 1-6.");;
    mret (Some Continue)
  else
    print (nl +:+ times "=" 40);;
    line ← input "Enter SMILES string: ";
    let smiles := strip line in
    if String.eqb smiles "" then
      print (Glyph.cross +:+ " Please enter a valid SMILES string");;
      mret (Some Continue)
    else
      '(output_format, default_ext, generate_3d, image_size) ← settings choice;
      output_name ← ask_output_name default_ext;
      print (nl +:+ Glyph.cycle +:+ " Converting SMILES to "
             +:+ upper output_format +:+ "...");;
      print (times "=" 40);;
      success ← convert_smiles smiles output_name output_format generate_3d image_size;
      (if (success : bool) then
         print (nl +:+ Glyph.check +:+ " Operation completed successfully!");;
         print (Glyph.folder +:+ " Output file: " +:+ output_name)
       else
         print (nl +:+ Glyph.cross +:+ " Operation failed!"));;
      print (nl +:+ times "-" 40);;
      mret None.

(** Lines 174-177: the last prompt. *)
Definition affirmative (answer : string) : bool :=
  in_list (lower (strip answer)) ["y"; "yes"].

Definition continue_prompt : M ctl :=
  line ← input "Perform another operation? (y/n): ";
  if negb (affirmative line) then
    print goodbye;;
    mret Break
  else mret Continue.

Definition interrupted : string :=
  nl +:+ nl +:+ Glyph.wave +:+ " Program interrupted. Goodbye!".

(** Lines 91-99: the menu. *)
Definition menu : M unit :=
  print (nl +:+ times "-" 60);;
  print "Options:";;
  print "1. Convert SMILES to PDB (3D)";;
  print "2. Convert SMILES to PDB (2D)";;
  print "3. Convert SMILES to MOL (3D)";;
  print "4. Convert SMILES to MOL (2D)";;
  print "5. Convert SMILES to PNG (2D)";;
  print "6. Exit";;
  print (times "-" 60).

(** Lines 102-177: the body of the [try]. *)
Definition try_body : M ctl :=
  early ← before_continue_prompt;
  match early with
  | Some c => mret c
  | None => continue_prompt
  end.

(** Lines 91-184: one iteration of the loop. *)
Definition iteration : M ctl :=
  menu;;
  try_except_interrupt
    try_body
    (print interrupted;;
     mret Break)
    (fun e =>
       print (nl +:+ Glyph.cross +:+ " An error occurred: " +:+ e);;
       mret Continue).

(** [while True: body], for at most [fuel] iterations; [false] when the
    fuel ran out before a [break]. *)
Fixpoint while_true (fuel : nat) (body : M ctl) : M bool :=
  match fuel with
  | O => mret false
  | S fuel' =>
      c ← body;
      match c with
      | Break => mret true
      | Continue => while_true fuel' body
      end
  end.

Definition interactive_conversion (fuel : nat) : M bool :=
  print (times "=" 60);;
  print (Glyph.microscope +:+ " Interactive Molecular Format Conversion Tool");;
  print (times "=" 60);;
  print "This tool converts SMILES strings to PDB, MOL, or PNG files";;
  print (times "=" 60);;
  while_true fuel iteration.

(** ** Properties of runs *)

(** The world in which [convert_smiles], started in [w], has called the
    parser. *)
Definition parse_called (smiles fmt : string) (w : World) : World :=
  emit [Print ("Converting SMILES to " +:+ upper fmt +:+ ": " +:+ smiles);
        Print ("Parsing SMILES: " +:+ smiles);
        CallMolFromSmiles smiles] w.

(** The world in which [convert_smiles], started in [w], has parsed the
    molecule [m] and made [mh] of it by adding hydrogens. *)
Definition with_hydrogens (smiles fmt formula : string) (m mh : Mol tk)
    (w : World) : World :=
  let mol := length (heap w) in
  let mol_with_h := S (length (heap w)) in
  mkWorld (files w) (heap w ++ [m; mh])%list (stdin w)
    (trace w ++
     [Print ("Converting SMILES to " +:+ upper fmt +:+ ": " +:+ smiles);
      Print ("Parsing SMILES: " +:+ smiles);
      CallMolFromSmiles smiles;
      Print "Successfully parsed SMILES";
      CallMolToSmiles mol;
      Print ("Molecular formula: " +:+ formula);
      CallGetNumAtoms mol;
      Print ("Number of atoms: " +:+ str_nat (tk_GetNumAtoms tk m));
      CallAddHs mol;
      CallGetNumAtoms mol_with_h;
      Print ("Number of atoms after adding hydrogens: "
             +:+ str_nat (tk_GetNumAtoms tk mh))])%list.

(** The events of the 3D block on the object [h]. *)
Definition embedding_events (h : handle) : list event :=
  [Print "Generating 3D coordinates..."; CallEmbedMolecule h ETKDG].

Definition retry_events (h : handle) : list event :=
  [Print "First embedding failed, trying alternative method...";
   CallEmbedMolecule h DefaultEmbedding].

Definition minimized_events (h : handle) (converged : bool) : list event :=
  ([CallMMFFOptimizeMolecule h]
   ++ (if converged then []
       else [Print "Energy minimization may not have fully converged"])
   ++ [Print "3D coordinates generated successfully"])%list.

Definition use_2d_events (h : handle) (msg : string) : list event :=
  [Print ("3D coordinate generation warning: " +:+ msg);
   Print "Using 2D coordinates...";
   CallCompute2DCoords h].

(** The embedding of the object in state [m0] returned: either ETKDG
    gave a value other than -1, or it gave -1 and the second call
    returned (anything).  [evs] are the events, [m2] the state left. *)
Definition embedded (h : handle) (m0 : Mol tk) (evs : list event) (m2 : Mol tk)
    : Prop :=
  (exists r, r <> -1 /\ tk_EmbedMolecule tk m0 ETKDG = (Normal r, m2)
             /\ evs = embedding_events h)
  \/ (exists m1 r, tk_EmbedMolecule tk m0 ETKDG = (Normal (-1), m1)
                   /\ tk_EmbedMolecule tk m1 DefaultEmbedding = (Normal r, m2)
                   /\ evs = (embedding_events h ++ retry_events h)%list).

(** The 2D layout of the object [h], in state [m'], after the events
    [evs]: what the inner handler ends with. *)
Definition laid_out_2d (h : handle) (m' : Mol tk) (evs : list event) (w : World)
    : outcome unit * World :=
  ((tk_Compute2DCoords tk m').1,
   set_mol h (tk_Compute2DCoords tk m').2 (emit evs w)).

(** [c] leaves the files as they are and calls no writer. *)
Definition writes_nothing {A} (c : M A) : Prop :=
  forall w,
    files (c w).2 = files w
    /\ exists evs, trace (c w).2 = (trace w ++ evs)%list
                   /\ forallb (fun e => negb (is_writer e)) evs = true.

End Program.

Arguments mkWorld {tk} files heap stdin trace.
Arguments files {tk} w.
Arguments heap {tk} w.
Arguments stdin {tk} w.
Arguments trace {tk} w.
Arguments emit {tk} evs w.
Arguments push {tk} m w.
Arguments set_mol {tk} h m w.
Arguments with_hydrogens {tk} smiles fmt formula m mh w.
Arguments parse_called {tk} smiles fmt w.
Arguments laid_out_2d {tk} h m' evs w.
Arguments writes_nothing {tk} {A} c.
Arguments read_line {tk} w.

(** ** A scripted toolkit, for closed runs

    It knows three molecules by name; what its embedding, minimization and
    hydrogen steps answer is part of the script. *)

Module Toy.

Record mol : Type := mkMol {
  formula : string;
  atoms : nat;
  missing_h : nat;     (* hydrogens not yet explicit *)
  dims : nat           (* 0: no coordinates; 2 or 3 *)
}.

Record script : Type := mkScript {
  etkdg : outcome Z;
  fallback : outcome Z;
  mmff : outcome Z;
  add_hs : outcome unit
}.

Definition parse (smiles : string) : outcome (option mol) :=
  if String.eqb smiles "CCO" then Normal (Some (mkMol "CCO" 3 6 0))
  else if String.eqb smiles "c1ccccc1" then Normal (Some (mkMol "c1ccccc1" 6 6 0))
  else if String.eqb smiles "[Na+]" then Normal (Some (mkMol "[Na+]" 1 0 0))
  else Normal None.

Definition with_dims (d : nat) (m : mol) : mol :=
  mkMol (formula m) (atoms m) (missing_h m) d.

Definition embed (s : script) (m : mol) (method : EmbedMethod) : outcome Z * mol :=
  match (match method with ETKDG => etkdg s | DefaultEmbedding => fallback s end) with
  | Normal r => (Normal r, if r =? -1 then m else with_dims 3 m)
  | Raised e => (Raised e, m)
  end.

Definition write (content path : string) (fs : FileSystem)
    : outcome unit * FileSystem :=
  (Normal tt, <[path := content]> fs).

Definition toolkit (s : script) : Toolkit := {|
  Mol := mol;
  Image := Z;
  tk_MolFromSmiles := parse;
  tk_MolToSmiles := fun m => Normal (formula m);
  tk_GetNumAtoms := atoms;
  tk_AddHs := fun m =>
    match add_hs s with
    | Normal _ => Normal (mkMol (formula m) (atoms m + missing_h m) 0 (dims m))
    | Raised e => Raised e
    end;
  tk_Compute2DCoords := fun m => (Normal tt, with_dims 2 m);
  tk_EmbedMolecule := embed s;
  tk_MMFFOptimizeMolecule := fun m => (mmff s, m);
  tk_MolToImage := fun _ size => Normal size;
  tk_save := fun _ => write "PNG";
  tk_MolToPDBFile := fun _ => write "PDB";
  tk_MolToMolFile := fun _ => write "MOL"
|}.

(** Every step answers well. *)
Definition fine : script := mkScript (Normal 0) (Normal 0) (Normal 0) (Normal tt).

(** The user interrupts the first embedding. *)
Definition interrupted_embedding : script :=
  mkScript (Raised KeyboardInterrupt) (Normal 0) (Normal 0) (Normal tt).

(** The first embedding raises. *)
Definition broken_embedding : script :=
  mkScript (Raised (Exception "embedding failed")) (Normal 0) (Normal 0) (Normal tt).

(** Both embeddings give -1; the minimization then finds no conformer. *)
Definition no_conformer : script :=
  mkScript (Normal (-1)) (Normal (-1)) (Raised (Exception "Bad Conformer Id"))
    (Normal tt).

(** Adding hydrogens raises. *)
Definition broken_hydrogens : script :=
  mkScript (Normal 0) (Normal 0) (Normal 0) (Raised (Exception "no hydrogens")).

Definition ethanol : mol := mkMol "CCO" 3 6 0.
Definition ethanol_h : mol := mkMol "CCO" 9 0 0.

(** A world with the given files and input lines, nothing else. *)
Definition world (s : script) (fs : FileSystem) (lines : list (outcome string))
    : World (toolkit s) :=
  mkWorld fs [] lines [].

(** A disk with one file of five bytes. *)
Definition stale (path : string) : FileSystem := {[ path := "stale" ]}.

End Toy.

(** * The rest of the program *)

Section Rest.

Variable tk : Toolkit.
Import PyStr.

(** ** The request of an iteration *)

(** smiles, output_name, output_format, generate_3d, image_size: the
    arguments of the call on line 164. *)
Definition request : Type := string * string * string * bool * Z.

(** Lines 102-158: from the menu choice to the request; [inl c] when the
    iteration ends before with [c]. *)
Definition collect_request : M tk (ctl + request) :=
  line ← input tk "Please select an option (1-6): ";
  let choice := strip line in
  if String.eqb choice "6" then
    print tk goodbye;;
    mret (inl Break)
  else if negb (in_list choice ["1"; "2"; "3"; "4"; "5"]) then
    print tk (Glyph.cross +:+ " Invalid choice. Please select 1-6.");;
    mret (inl Continue)
  else
    print tk (nl +:+ times "=" 40);;
    line ← input tk "Enter SMILES string: ";
    let smiles := strip line in
    if String.eqb smiles "" then
      print tk (Glyph.cross +:+ " Please enter a valid SMILES string");;
      mret (inl Continue)
    else
      '(output_format, default_ext, generate_3d, image_size) ← settings tk choice;
      output_name ← ask_output_name tk default_ext;
      mret (inr (smiles, output_name, output_format, generate_3d, image_size)).

(** Lines 160-173: the conversion of the request and the report. *)
Definition convert_request (r : request) : M tk unit :=
  let '(smiles, output_name, output_format, generate_3d, image_size) := r in
  print tk (nl +:+ Glyph.cycle +:+ " Converting SMILES to "
            +:+ upper output_format +:+ "...");;
  print tk (times "=" 40);;
  success ← convert_smiles tk smiles output_name output_format generate_3d image_size;
  (if (success : bool) then
     print tk (nl +:+ Glyph.check +:+ " Operation completed successfully!");;
     print tk (Glyph.folder +:+ " Output file: " +:+ output_name)
   else
     print tk (nl +:+ Glyph.cross +:+ " Operation failed!"));;
  print tk (nl +:+ times "-" 40).

(** What section 4.1 of the design asks of a request, and what the loop
    adds: the SMILES string is stripped and not empty, the format is one of
    the three, the file name ends with its extension, the size is above
    zero, and an image is never asked in 3D. *)
Definition well_formed (r : request) : Prop :=
  let '(smiles, output_name, output_format, generate_3d, image_size) := r in
  smiles <> "" /\ strip smiles = smiles
  /\ in_list output_format ["pdb"; "mol"; "png"] = true
  /\ (exists stem, output_name = stem +:+ "." +:+ output_format)
  /\ 0 < image_size
  /\ (output_format = "png" -> generate_3d = false).

(** ** More properties of runs *)

Definition choice_prompt : string := "Please select an option (1-6): ".
Definition smiles_prompt : string := "Enter SMILES string: ".

(** [c] only adds events, all of them accepted by [P]. *)
Definition emits_only (P : event -> bool) {A} (c : M tk A) : Prop :=
  forall w, exists evs,
    trace (c w).2 = (trace w ++ evs)%list /\ forallb P evs = true.

(** [c] reads no input. *)
Definition keeps_stdin {A} (c : M tk A) : Prop :=
  forall w, stdin (c w).2 = stdin w.

Definition is_interrupt {A} (r : outcome A) : bool :=
  match r with
  | Raised KeyboardInterrupt => true
  | _ => false
  end.

(** A toolkit none of whose calls ends in a keyboard interrupt. *)
Record no_interrupts : Prop := {
  calm_MolFromSmiles : forall s, is_interrupt (tk_MolFromSmiles tk s) = false;
  calm_MolToSmiles : forall m, is_interrupt (tk_MolToSmiles tk m) = false;
  calm_AddHs : forall m, is_interrupt (tk_AddHs tk m) = false;
  calm_Compute2DCoords : forall m, is_interrupt (tk_Compute2DCoords tk m).1 = false;
  calm_EmbedMolecule : forall m method,
    is_interrupt (tk_EmbedMolecule tk m method).1 = false;
  calm_MMFFOptimizeMolecule : forall m,
    is_interrupt (tk_MMFFOptimizeMolecule tk m).1 = false;
  calm_MolToImage : forall m n, is_interrupt (tk_MolToImage tk m n) = false;
  calm_save : forall img path fs, is_interrupt (tk_save tk img path fs).1 = false;
  calm_MolToPDBFile : forall m path fs,
    is_interrupt (tk_MolToPDBFile tk m path fs).1 = false;
  calm_MolToMolFile : forall m path fs,
    is_interrupt (tk_MolToMolFile tk m path fs).1 = false
}.

(** [c] never ends in a keyboard interrupt. *)
Definition uninterrupted {A} (c : M tk A) : Prop :=
  forall w, is_interrupt (c w).1 = false.

(** The events a conversion to PNG may add: prints, the parse, the two
    accessors, the 2D layout, the image at [size] and its save at [out]. *)
Definition png_event (out : string) (size : Z) (e : event) : bool :=
  match e with
  | Print _ | CallMolFromSmiles _ | CallMolToSmiles _ | CallGetNumAtoms _
  | CallCompute2DCoords _ => true
  | CallMolToImage _ n => n =? size
  | CallSave path => String.eqb path out
  | _ => false
  end.

(** The calls of the 3D block. *)
Definition is_3d_call (e : event) : bool :=
  match e with
  | CallEmbedMolecule _ _ | CallMMFFOptimizeMolecule _ => true
  | _ => false
  end.

(** The writer call that goes with a format, on the path [out]. *)
Definition writer_for (fmt out : string) (e : event) : bool :=
  match e with
  | CallSave path => String.eqb fmt "png" && String.eqb path out
  | CallMolToPDBFile _ path => String.eqb fmt "pdb" && String.eqb path out
  | CallMolToMolFile _ path => String.eqb fmt "mol" && String.eqb path out
  | _ => false
  end.

(** [fs'] is what the writer of the call [e] made of [fs]. *)
Definition writer_result (e : event) (fs fs' : FileSystem) : Prop :=
  match e with
  | CallSave path => exists img, fs' = (tk_save tk img path fs).2
  | CallMolToPDBFile _ path => exists m, fs' = (tk_MolToPDBFile tk m path fs).2
  | CallMolToMolFile _ path => exists m, fs' = (tk_MolToMolFile tk m path fs).2
  | _ => False
  end.

Definition quiet_events (evs : list event) : bool :=
  forallb (fun e => negb (is_writer e)) evs.

(** [c] calls no writer and leaves the files, or calls one writer, one
    that [allowed] accepts, and the files are as they were or what that
    writer left. *)
Definition writes_at_most_once (allowed : event -> bool) {A} (c : M tk A) : Prop :=
  forall w,
    (files (c w).2 = files w
     /\ exists evs, trace (c w).2 = (trace w ++ evs)%list /\ quiet_events evs = true)
    \/ (exists evs1 e evs2,
          trace (c w).2 = (trace w ++ evs1 ++ e :: evs2)%list
          /\ quiet_events evs1 = true /\ quiet_events evs2 = true
          /\ allowed e = true
          /\ (files (c w).2 = files w
              \/ writer_result e (files w) (files (c w).2))).

(** The writer of the formats pdb and mol. *)
Definition format_writer (fmt : string)
    : option (Mol tk -> string -> FileSystem -> outcome unit * FileSystem) :=
  if String.eqb fmt "pdb" then Some (tk_MolToPDBFile tk)
  else if String.eqb fmt "mol" then Some (tk_MolToMolFile tk)
  else None.

(** What the call returns once the writer has ended with [r], leaving the
    files [fs]. *)
Definition reported (r : outcome unit) (fs : FileSystem) (out : string)
    : outcome bool :=
  match r with
  | Normal _ => Normal (nonempty_file fs out)
  | Raised (Exception _) => Normal false
  | Raised KeyboardInterrupt => Raised KeyboardInterrupt
  end.

End Rest.

(** The scripted toolkit with a parser that raises [e]. *)
Definition deaf_toolkit (e : exn) : Toolkit :=
  let t := Toy.toolkit Toy.fine in {|
    Mol := Toy.mol;
    Image := Z;
    tk_MolFromSmiles := fun _ => Raised e;
    tk_MolToSmiles := tk_MolToSmiles t;
    tk_GetNumAtoms := tk_GetNumAtoms t;
    tk_AddHs := tk_AddHs t;
    tk_Compute2DCoords := tk_Compute2DCoords t;
    tk_EmbedMolecule := tk_EmbedMolecule t;
    tk_MMFFOptimizeMolecule := tk_MMFFOptimizeMolecule t;
    tk_MolToImage := tk_MolToImage t;
    tk_save := tk_save t;
    tk_MolToPDBFile := tk_MolToPDBFile t;
    tk_MolToMolFile := tk_MolToMolFile t
  |}.

Arguments emits_only {tk} P {A} c.
Arguments keeps_stdin {tk} {A} c.
Arguments uninterrupted {tk} {A} c.
Arguments writes_at_most_once {tk} allowed {A} c.

(** * Facts *)

Local Open Scope list_scope.

(** ** Worlds and single steps *)

Section Steps.

Variable tk : Toolkit.
Implicit Types (w : World tk) (h : handle) (m : Mol tk) (evs : list event).

Lemma emit_emit evs1 evs2 w : emit evs2 (emit evs1 w) = emit (evs1 ++ evs2) w.
Proof. unfold emit; cbn. by rewrite <- app_assoc. Qed.

Lemma emit_nil w : emit [] w = w.
Proof. destruct w; unfold emit; cbn. by rewrite app_nil_r. Qed.

Lemma emit_set_mol evs h m w : emit evs (set_mol h m w) = set_mol h m (emit evs w).
Proof. reflexivity. Qed.

Lemma emit_push evs m w : emit evs (push m w) = push m (emit evs w).
Proof. reflexivity. Qed.

Lemma set_mol_set_mol h m1 m2 w : set_mol h m2 (set_mol h m1 w) = set_mol h m2 w.
Proof. unfold set_mol; cbn. by rewrite list_insert_insert_eq. Qed.

Lemma lookup_set_mol h m m0 w :
  heap w !! h = Some m0 -> heap (set_mol h m w) !! h = Some m.
Proof. intros H. cbn. apply list_lookup_insert_eq. by eapply lookup_lt_Some. Qed.

Lemma lookup_push_new m w : heap (push m w) !! length (heap w) = Some m.
Proof. cbn. by apply list_lookup_middle. Qed.

Lemma lookup_push_old h m m0 w :
  heap w !! h = Some m0 -> heap (push m w) !! h = Some m0.
Proof.
  intros H. cbn. rewrite lookup_app_l; [done | by eapply lookup_lt_Some].
Qed.

(** *** The monad *)

Lemma run_bind {A B} (c : M tk A) (k : A -> M tk B) w :
  (c ≫= k) w =
    match c w with
    | (Normal a, w') => k a w'
    | (Raised e, w') => (Raised e, w')
    end.
Proof. reflexivity. Qed.

Lemma run_bind_normal {A B} (c : M tk A) (k : A -> M tk B) w a w' :
  c w = (Normal a, w') -> (c ≫= k) w = k a w'.
Proof. intros H. by rewrite run_bind, H. Qed.

Lemma run_bind_raised {A B} (c : M tk A) (k : A -> M tk B) w e w' :
  c w = (Raised e, w') -> (c ≫= k) w = (Raised e, w').
Proof. intros H. by rewrite run_bind, H. Qed.

Lemma run_bind_assoc {A B C} (c : M tk A) (k : A -> M tk B) (k' : B -> M tk C) w :
  ((c ≫= k) ≫= k') w = (c ≫= (fun a => k a ≫= k')) w.
Proof. rewrite !run_bind. by destruct (c w) as [[a|e] w']. Qed.

Lemma run_print {B} (line : string) (k : unit -> M tk B) w :
  (print tk line ≫= k) w = k tt (emit [Print line] w).
Proof. reflexivity. Qed.

Lemma run_try_except {A} (body : M tk A) handler w :
  try_except tk body handler w =
    match body w with
    | (Raised (Exception msg), w') => handler msg w'
    | r => r
    end.
Proof. reflexivity. Qed.

Lemma try_except_ext {A} (body body' : M tk A) handler w w' :
  body w = body' w' ->
  try_except tk body handler w = try_except tk body' handler w'.
Proof. intros H. by rewrite !run_try_except, H. Qed.

(** A [try] whose body has done its first step goes on with the rest. *)
Lemma try_except_step {A B} (c : M tk A) (k : A -> M tk B) handler w a w' :
  c w = (Normal a, w') ->
  try_except tk (c ≫= k) handler w = try_except tk (k a) handler w'.
Proof. intros H. by rewrite !run_try_except, run_bind, H. Qed.

(** *** Toolkit calls *)

Lemma run_MolFromSmiles smiles w :
  MolFromSmiles tk smiles w =
    match tk_MolFromSmiles tk smiles with
    | Normal (Some m) =>
        (Normal (Some (length (heap w))), push m (emit [CallMolFromSmiles smiles] w))
    | Normal None => (Normal None, emit [CallMolFromSmiles smiles] w)
    | Raised e => (Raised e, emit [CallMolFromSmiles smiles] w)
    end.
Proof.
  unfold MolFromSmiles. rewrite run_bind. cbn. unfold lift. rewrite run_bind.
  by destruct (tk_MolFromSmiles tk smiles) as [[m|]|e].
Qed.

Lemma run_with_mol {A} h (op : Mol tk -> outcome A) w m :
  heap w !! h = Some m -> with_mol tk h op w = (op m, w).
Proof. intros H. unfold with_mol. by rewrite H. Qed.

Lemma run_on_mol {A} h (op : Mol tk -> outcome A * Mol tk) w m :
  heap w !! h = Some m -> on_mol tk h op w = ((op m).1, set_mol h (op m).2 w).
Proof. intros H. unfold on_mol. by rewrite H. Qed.

Lemma run_MolToSmiles h w m :
  heap w !! h = Some m ->
  MolToSmiles tk h w = (tk_MolToSmiles tk m, emit [CallMolToSmiles h] w).
Proof. intros H. unfold MolToSmiles. rewrite run_bind. cbn. by apply run_with_mol. Qed.

Lemma run_GetNumAtoms h w m :
  heap w !! h = Some m ->
  GetNumAtoms tk h w = (Normal (tk_GetNumAtoms tk m), emit [CallGetNumAtoms h] w).
Proof.
  intros H. unfold GetNumAtoms. rewrite run_bind. cbn.
  by rewrite (run_with_mol h _ _ m).
Qed.

Lemma run_AddHs h w m :
  heap w !! h = Some m ->
  AddHs tk h w =
    match tk_AddHs tk m with
    | Normal m' => (Normal (length (heap w)), push m' (emit [CallAddHs h] w))
    | Raised e => (Raised e, emit [CallAddHs h] w)
    end.
Proof.
  intros H. unfold AddHs. rewrite run_bind. cbn. rewrite run_bind.
  rewrite (run_with_mol h _ _ m) by done. by destruct (tk_AddHs tk m).
Qed.

Lemma run_Compute2DCoords h w m :
  heap w !! h = Some m ->
  Compute2DCoords tk h w =
    ((tk_Compute2DCoords tk m).1,
     set_mol h (tk_Compute2DCoords tk m).2 (emit [CallCompute2DCoords h] w)).
Proof. intros H. unfold Compute2DCoords. rewrite run_bind. cbn. by apply run_on_mol. Qed.

Lemma run_EmbedMolecule h method w m :
  heap w !! h = Some m ->
  EmbedMolecule tk h method w =
    ((tk_EmbedMolecule tk m method).1,
     set_mol h (tk_EmbedMolecule tk m method).2 (emit [CallEmbedMolecule h method] w)).
Proof.
  intros H. unfold EmbedMolecule. rewrite run_bind. cbn.
  by rewrite (run_on_mol h _ _ m).
Qed.

Lemma run_MMFFOptimizeMolecule h w m :
  heap w !! h = Some m ->
  MMFFOptimizeMolecule tk h w =
    ((tk_MMFFOptimizeMolecule tk m).1,
     set_mol h (tk_MMFFOptimizeMolecule tk m).2 (emit [CallMMFFOptimizeMolecule h] w)).
Proof. intros H. unfold MMFFOptimizeMolecule. rewrite run_bind. cbn. by apply run_on_mol. Qed.

End Steps.

(** ** The 3D block, step by step *)

(** Worlds are compared in the form [set_mol h m (push m' (emit evs w))]. *)
Ltac same_world :=
  unfold print, log, mret, M_ret, ret; cbv beta;
  repeat first [ rewrite emit_set_mol | rewrite emit_push | rewrite emit_emit
               | rewrite set_mol_set_mol ];
  cbn [app fst snd negb]; rewrite <- ?app_assoc; reflexivity.

Ltac live :=
  cbn [files heap stdin trace emit push set_mol with_hydrogens];
  rewrite ?length_app; cbn [length];
  repeat (rewrite lookup_app_l by (rewrite ?length_app; cbn [length]; lia));
  first [ eassumption
        | apply list_lookup_insert_eq; rewrite ?length_insert;
          eapply lookup_lt_Some; eassumption
        | apply list_lookup_middle; rewrite ?length_app; cbn [length]; lia ].

Section BlockSteps.

Variable tk : Toolkit.
Variables (h : handle) (w : World tk) (m0 : Mol tk).
Hypothesis Hlive : heap w !! h = Some m0.

Lemma run_embed_molecule :
  embed_molecule tk h w =
    match tk_EmbedMolecule tk m0 ETKDG with
    | (Raised e, m1) => (Raised e, set_mol h m1 (emit [CallEmbedMolecule h ETKDG] w))
    | (Normal r, m1) =>
        if r =? -1 then
          let evs := [CallEmbedMolecule h ETKDG;
                      Print "First embedding failed, trying alternative method...";
                      CallEmbedMolecule h DefaultEmbedding] in
          match tk_EmbedMolecule tk m1 DefaultEmbedding with
          | (Raised e, m2) => (Raised e, set_mol h m2 (emit evs w))
          | (Normal _, m2) => (Normal tt, set_mol h m2 (emit evs w))
          end
        else (Normal tt, set_mol h m1 (emit [CallEmbedMolecule h ETKDG] w))
    end.
Proof.
  unfold embed_molecule.
  rewrite run_bind, (run_EmbedMolecule tk h ETKDG w m0 Hlive).
  destruct (tk_EmbedMolecule tk m0 ETKDG) as [[r|e] m1]; cbn [fst snd]; [|done].
  destruct (r =? -1); [|done].
  rewrite run_print, run_bind, (run_EmbedMolecule tk h DefaultEmbedding _ m1) by live.
  destruct (tk_EmbedMolecule tk m1 DefaultEmbedding) as [[r'|e] m2]; cbn [fst snd];
    same_world.
Qed.

Lemma run_minimize_energy :
  minimize_energy tk h w =
    match tk_MMFFOptimizeMolecule tk m0 with
    | (Raised e, m1) => (Raised e, set_mol h m1 (emit [CallMMFFOptimizeMolecule h] w))
    | (Normal c, m1) =>
        (Normal tt,
         set_mol h m1
           (emit ([CallMMFFOptimizeMolecule h]
                  ++ (if c =? 0 then []
                      else [Print "Energy minimization may not have fully converged"])
                  ++ [Print "3D coordinates generated successfully"]) w))
    end.
Proof.
  unfold minimize_energy.
  rewrite run_bind, (run_MMFFOptimizeMolecule tk h w m0 Hlive).
  destruct (tk_MMFFOptimizeMolecule tk m0) as [[c|e] m1]; cbn [fst snd]; [|done].
  destruct (c =? 0); cbn [negb]; rewrite run_bind; same_world.
Qed.

Lemma run_use_2d_coordinates msg :
  use_2d_coordinates tk h msg w =
    ((tk_Compute2DCoords tk m0).1,
     set_mol h (tk_Compute2DCoords tk m0).2
       (emit [Print ("3D coordinate generation warning: " +:+ msg);
              Print "Using 2D coordinates...";
              CallCompute2DCoords h] w)).
Proof.
  unfold use_2d_coordinates.
  rewrite !run_print, (run_Compute2DCoords tk h _ m0) by live.
  same_world.
Qed.

End BlockSteps.

(** ** The 3D block, case by case *)

Section Block3D.

Variable tk : Toolkit.
Variables (h : handle) (w : World tk) (m0 : Mol tk).
Hypothesis Hlive : heap w !! h = Some m0.

Lemma run_generate_3d_coordinates :
  generate_3d_coordinates tk h w =
    match embed_molecule tk h (emit [Print "Generating 3D coordinates..."] w) with
    | (Normal _, w1) =>
        match minimize_energy tk h w1 with
        | (Raised (Exception msg), w2) => use_2d_coordinates tk h msg w2
        | r => r
        end
    | (Raised (Exception msg), w1) => use_2d_coordinates tk h msg w1
    | (Raised KeyboardInterrupt, w1) => (Raised KeyboardInterrupt, w1)
    end.
Proof.
  unfold generate_3d_coordinates. rewrite run_print, run_try_except, run_bind.
  by destruct (embed_molecule tk h _) as [[[]|[|msg]] w1].
Qed.

(** The first embedding raises. *)
Lemma generate_3d_etkdg_raises e m1 :
  tk_EmbedMolecule tk m0 ETKDG = (Raised e, m1) ->
  generate_3d_coordinates tk h w =
    match e with
    | Exception msg => laid_out_2d h m1 (embedding_events h ++ use_2d_events h msg) w
    | KeyboardInterrupt => (Raised KeyboardInterrupt, set_mol h m1 (emit (embedding_events h) w))
    end.
Proof.
  intros HE. rewrite run_generate_3d_coordinates.
  rewrite (run_embed_molecule tk h _ m0), HE by live.
  destruct e as [|msg]; [same_world|].
  rewrite (run_use_2d_coordinates tk h _ m1) by live.
  unfold laid_out_2d. same_world.
Qed.

(** The first embedding gives -1 and the second raises. *)
Lemma generate_3d_retry_raises m1 e m2 :
  tk_EmbedMolecule tk m0 ETKDG = (Normal (-1), m1) ->
  tk_EmbedMolecule tk m1 DefaultEmbedding = (Raised e, m2) ->
  generate_3d_coordinates tk h w =
    match e with
    | Exception msg =>
        laid_out_2d h m2 (embedding_events h ++ retry_events h ++ use_2d_events h msg) w
    | KeyboardInterrupt =>
        (Raised KeyboardInterrupt,
         set_mol h m2 (emit (embedding_events h ++ retry_events h) w))
    end.
Proof.
  intros HE HD. rewrite run_generate_3d_coordinates.
  rewrite (run_embed_molecule tk h _ m0), HE by live. cbn [Z.eqb Pos.eqb Z.opp]. rewrite HD.
  destruct e as [|msg]; [same_world|].
  rewrite (run_use_2d_coordinates tk h _ m2) by live.
  unfold laid_out_2d. same_world.
Qed.

(** The embedding returned: the minimization comes next. *)
Lemma generate_3d_embedded evs m2 :
  embedded tk h m0 evs m2 ->
  generate_3d_coordinates tk h w =
    match tk_MMFFOptimizeMolecule tk m2 with
    | (Normal c, m3) =>
        (Normal tt, set_mol h m3 (emit (evs ++ minimized_events h (c =? 0)) w))
    | (Raised (Exception msg), m3) =>
        laid_out_2d h m3
          (evs ++ [CallMMFFOptimizeMolecule h] ++ use_2d_events h msg) w
    | (Raised KeyboardInterrupt, m3) =>
        (Raised KeyboardInterrupt,
         set_mol h m3 (emit (evs ++ [CallMMFFOptimizeMolecule h]) w))
    end.
Proof.
  intros Hemb. rewrite run_generate_3d_coordinates.
  rewrite (run_embed_molecule tk h _ m0) by live.
  destruct Hemb as [(r & Hr & HE & ->) | (m1 & r & HE & HD & ->)]; rewrite HE.
  - apply Z.eqb_neq in Hr. rewrite Hr.
    rewrite (run_minimize_energy tk h _ m2) by live.
    destruct (tk_MMFFOptimizeMolecule tk m2) as [[c|[|msg]] m3].
    same_world.
    same_world.
    rewrite (run_use_2d_coordinates tk h _ m3) by live.
    unfold laid_out_2d. same_world.
  - cbn [Z.eqb Pos.eqb Z.opp]. rewrite HD.
    rewrite (run_minimize_energy tk h _ m2) by live.
    destruct (tk_MMFFOptimizeMolecule tk m2) as [[c|[|msg]] m3].
    same_world.
    same_world.
    rewrite (run_use_2d_coordinates tk h _ m3) by live.
    unfold laid_out_2d. same_world.
Qed.
End Block3D.

(** ** From the call to the coordinates *)

Section Hydrogens.

Variable tk : Toolkit.
Variables (smiles out fmt : string) (generate_3d : bool) (size : Z) (w : World tk).
Variables (m mh : Mol tk) (formula : string).
Hypothesis Hparse : tk_MolFromSmiles tk smiles = Normal (Some m).
Hypothesis Hformula : tk_MolToSmiles tk m = Normal formula.
Hypothesis Haddhs : tk_AddHs tk m = Normal mh.
Hypothesis Hfmt : String.eqb fmt "png" = false.

Lemma convert_smiles_with_hydrogens :
  let mol_with_h := S (length (heap w)) in
  convert_smiles tk smiles out fmt generate_3d size w =
    try_except tk
      ((if generate_3d then generate_3d_coordinates tk mol_with_h
        else Compute2DCoords tk mol_with_h);;
       save_molecule tk mol_with_h out fmt;;
       check_output tk out)
      (conversion_failed tk)
      (with_hydrogens smiles fmt formula m mh w).
Proof.
  intros mol_with_h. unfold convert_smiles. rewrite run_print.
  apply try_except_ext.
  rewrite run_print, run_bind, run_MolFromSmiles, Hparse.
  unfold convert_parsed, report_parsed, write_output. rewrite Hfmt.
  cbn [heap emit push].
  rewrite ?run_bind_assoc, run_print.
  rewrite ?run_bind_assoc, run_bind, (run_MolToSmiles tk _ _ m), Hformula by live.
  rewrite ?run_bind_assoc, run_print.
  rewrite ?run_bind_assoc, run_bind, (run_GetNumAtoms tk _ _ m) by live.
  rewrite ?run_bind_assoc, run_print.
  rewrite ?run_bind_assoc, run_bind, (run_AddHs tk _ _ m), Haddhs by live.
  cbn [heap emit push]. rewrite length_app, Nat.add_1_r. cbn [length].
  rewrite ?run_bind_assoc, run_bind, (run_GetNumAtoms tk _ _ mh) by live.
  rewrite ?run_bind_assoc, run_print.
  rewrite ?run_bind_assoc.
  fold mol_with_h. f_equal.
  repeat first [ rewrite emit_push | rewrite emit_emit ].
  unfold with_hydrogens, emit, push; cbn [files heap stdin trace app].
  by rewrite <- app_assoc.
Qed.
End Hydrogens.

(** ** What convert_smiles returns *)

Section Returns.

Variable tk : Toolkit.
Variables (smiles out fmt : string) (generate_3d : bool) (size : Z) (w : World tk).

Let parsed : World tk := parse_called smiles fmt w.

Lemma run_check_output w2 :
  check_output tk out w2 =
    if nonempty_file (files w2) out
    then (Normal true, emit [Print ("Conversion successful: " +:+ out)] w2)
    else (Normal false, emit [Print "Output file creation failed"] w2).
Proof.
  unfold check_output. rewrite run_bind. cbn.
  by destruct (nonempty_file (files w2) out).
Qed.

Lemma run_convert_smiles :
  convert_smiles tk smiles out fmt generate_3d size w =
    match tk_MolFromSmiles tk smiles with
    | Raised KeyboardInterrupt => (Raised KeyboardInterrupt, parsed)
    | Raised (Exception msg) =>
        (Normal false, emit [Print ("Conversion failed: " +:+ msg)] parsed)
    | Normal None => (Normal false, emit [Print "Invalid SMILES string"] parsed)
    | Normal (Some m) =>
        match convert_parsed tk (length (heap w)) out fmt generate_3d size
                (push m parsed) with
        | (Normal _, w2) => check_output tk out w2
        | (Raised KeyboardInterrupt, w2) => (Raised KeyboardInterrupt, w2)
        | (Raised (Exception msg), w2) =>
            (Normal false, emit [Print ("Conversion failed: " +:+ msg)] w2)
        end
    end.
Proof.
  unfold convert_smiles. rewrite run_print, run_try_except.
  rewrite run_print, run_bind, run_MolFromSmiles.
  assert (Hw : emit [CallMolFromSmiles smiles]
                 (emit [Print ("Parsing SMILES: " +:+ smiles)]
                    (emit [Print ("Converting SMILES to " +:+ PyStr.upper fmt
                                  +:+ ": " +:+ smiles)] w)) = parsed)
    by (unfold parsed, parse_called; rewrite !emit_emit; reflexivity).
  cbn [heap emit]. rewrite Hw.
  destruct (tk_MolFromSmiles tk smiles) as [[m|]|[|msg]]; try reflexivity.
  rewrite run_bind.
  destruct (convert_parsed tk (length (heap w)) out fmt generate_3d size (push m parsed))
    as [[[]|[|msg]] w2]; try reflexivity.
  rewrite run_check_output. by destruct (nonempty_file (files w2) out).
Qed.

End Returns.

(** ** Runs that write nothing *)

Section Quiet.

Variable tk : Toolkit.

Lemma writes_nothing_ret {A} (a : A) : writes_nothing (mret a : M tk A).
Proof. intros w; cbn. split; [done|]. exists []. by rewrite app_nil_r. Qed.

Lemma writes_nothing_bind {A B} (c : M tk A) (k : A -> M tk B) :
  writes_nothing c -> (forall a, writes_nothing (k a)) -> writes_nothing (c ≫= k).
Proof.
  intros Hc Hk w. rewrite run_bind.
  destruct (Hc w) as [Hf [evs [Ht Hp]]].
  destruct (c w) as [[a|e] w']; cbn in *.
  - destruct (Hk a w') as [Hf' [evs' [Ht' Hp']]].
    split; [congruence|]. exists (evs ++ evs').
    rewrite Ht', Ht, app_assoc, forallb_app, Hp, Hp'. done.
  - split; [done|]. by exists evs.
Qed.

Lemma writes_nothing_try_except {A} (body : M tk A) handler :
  writes_nothing body -> (forall msg, writes_nothing (handler msg)) ->
  writes_nothing (try_except tk body handler).
Proof.
  intros Hc Hk w. rewrite run_try_except.
  destruct (Hc w) as [Hf [evs [Ht Hp]]].
  destruct (body w) as [[a|[|msg]] w']; cbn in *; try (split; [done|]; by exists evs).
  destruct (Hk msg w') as [Hf' [evs' [Ht' Hp']]].
  split; [congruence|]. exists (evs ++ evs').
  rewrite Ht', Ht, app_assoc, forallb_app, Hp, Hp'. done.
Qed.

Lemma writes_nothing_log (e : event) : is_writer e = false -> writes_nothing (log tk e).
Proof. intros H w; cbn. split; [done|]. exists [e]. cbn. by rewrite H. Qed.

Lemma writes_nothing_print line : writes_nothing (print tk line).
Proof. by apply writes_nothing_log. Qed.

Lemma writes_nothing_silent {A} (c : M tk A) :
  (forall w, files (c w).2 = files w /\ trace (c w).2 = trace w) -> writes_nothing c.
Proof. intros H w. destruct (H w) as [Hf Ht]. split; [done|]. exists []. by rewrite app_nil_r. Qed.

Lemma writes_nothing_with_mol {A} h (op : Mol tk -> outcome A) :
  writes_nothing (with_mol tk h op).
Proof.
  apply writes_nothing_silent. intros w. unfold with_mol. by destruct (heap w !! h).
Qed.

Lemma writes_nothing_on_mol {A} h (op : Mol tk -> outcome A * Mol tk) :
  writes_nothing (on_mol tk h op).
Proof.
  apply writes_nothing_silent. intros w. unfold on_mol. by destruct (heap w !! h).
Qed.

Lemma writes_nothing_alloc m : writes_nothing (alloc tk m).
Proof. by apply writes_nothing_silent. Qed.

Lemma writes_nothing_lift {A} (r : outcome A) : writes_nothing (lift tk r).
Proof. by apply writes_nothing_silent. Qed.

Lemma writes_nothing_exists path : writes_nothing (exists_and_nonempty tk path).
Proof. by apply writes_nothing_silent. Qed.

End Quiet.

Ltac quiet :=
  repeat first
    [ apply writes_nothing_ret
    | apply writes_nothing_print
    | apply writes_nothing_log; reflexivity
    | apply writes_nothing_with_mol
    | apply writes_nothing_on_mol
    | apply writes_nothing_alloc
    | apply writes_nothing_lift
    | apply writes_nothing_exists
    | apply writes_nothing_bind; [|intros ?]
    | apply writes_nothing_try_except; [|intros ?]
    | match goal with
      | |- writes_nothing (if ?b then _ else _) => destruct b
      | |- writes_nothing (match ?x with _ => _ end) => destruct x
      end ].

Section QuietConversion.

Variable tk : Toolkit.

Lemma writes_nothing_generate_3d h : writes_nothing (generate_3d_coordinates tk h).
Proof.
  unfold generate_3d_coordinates, embed_molecule, minimize_energy,
    use_2d_coordinates, EmbedMolecule, MMFFOptimizeMolecule, Compute2DCoords.
  quiet.
Qed.

(** With a format that is none of the three, the steps after the parse
    write nothing. *)
Lemma writes_nothing_convert_parsed mol out fmt generate_3d size :
  PyStr.in_list fmt ["pdb"; "mol"; "png"] = false ->
  writes_nothing (convert_parsed tk mol out fmt generate_3d size).
Proof.
  unfold PyStr.in_list. cbn [existsb]. intros H.
  apply orb_false_elim in H as [Hpdb H]. apply orb_false_elim in H as [Hmol H].
  apply orb_false_elim in H as [Hpng _].
  unfold convert_parsed, report_parsed, write_output, save_molecule.
  rewrite Hpdb, Hmol, Hpng.
  unfold MolToSmiles, GetNumAtoms, AddHs, Compute2DCoords.
  quiet.
Qed.

End QuietConversion.

(** * The conversion function *)

Section Conversion.

Variable tk : Toolkit.
Implicit Types (w : World tk) (m mh : Mol tk).

Lemma lookup_with_hydrogens smiles fmt formula m mh w :
  heap (with_hydrogens smiles fmt formula m mh w) !! length (heap w) = Some m
  /\ heap (with_hydrogens smiles fmt formula m mh w) !! S (length (heap w)) = Some mh.
Proof.
  unfold with_hydrogens; cbn [heap]. split.
  - by apply list_lookup_middle.
  - change [m; mh] with ([m] ++ [mh]). rewrite app_assoc.
    apply list_lookup_middle. rewrite length_app. cbn. lia.
Qed.

Lemma writes_nothing_convert_smiles smiles out fmt generate_3d size :
  PyStr.in_list fmt ["pdb"; "mol"; "png"] = false ->
  writes_nothing (convert_smiles tk smiles out fmt generate_3d size).
Proof.
  intros Hfmt. unfold convert_smiles.
  apply writes_nothing_bind; [quiet | intros _].
  apply writes_nothing_try_except; [| intros msg; unfold conversion_failed; quiet].
  apply writes_nothing_bind; [quiet | intros _].
  apply writes_nothing_bind; [unfold MolFromSmiles; quiet | intros [mol|]]; [| quiet].
  apply writes_nothing_bind; [by apply writes_nothing_convert_parsed | intros _].
  unfold check_output. quiet.
Qed.

(** When the call returns true. *)
Lemma returns_true_iff smiles out fmt generate_3d size w :
  let run := convert_smiles tk smiles out fmt generate_3d size w in
  run.1 = Normal true <->
    (exists m w2,
        tk_MolFromSmiles tk smiles = Normal (Some m)
        /\ convert_parsed tk (length (heap w)) out fmt generate_3d size
             (push m (parse_called smiles fmt w)) = (Normal tt, w2))
    /\ nonempty_file (files run.2) out = true.
Proof.
  cbv zeta. rewrite run_convert_smiles.
  destruct (tk_MolFromSmiles tk smiles) as [[m|]|[|msg]];
    try (split; [discriminate | intros [(m' & w2 & [=] & _) _]]).
  destruct (convert_parsed tk (length (heap w)) out fmt generate_3d size
              (push m (parse_called smiles fmt w))) as [[[]|[|msg]] w2] eqn:Hsteps;
    try (split; [discriminate | intros [(m' & w2' & [= <-] & Hr) _]; congruence]).
  rewrite run_check_output.
  destruct (nonempty_file (files w2) out) eqn:Hfile; cbn [fst snd emit files].
  - split; [|done]. intros _. split; [|done]. by exists m, w2.
  - split; [discriminate|]. intros [_ H]. congruence.
Qed.

(** C1, as amended: convert_smiles returns true exactly when the parse
    gave a molecule, the steps from the parse to the check all returned,
    and the output file exists with a size above zero at the end.  When
    the parse gives no molecule, or the parse or a later step raises an
    exception, the call prints its message and returns false, whatever is
    at the output path; a keyboard interrupt raised by the parse or by a
    later step leaves the function.  When the steps returned, the result
    is the test of the file the steps left. *)
Theorem convert_smiles_true_iff smiles out fmt generate_3d size w :
  let run := convert_smiles tk smiles out fmt generate_3d size w in
  let parsed := parse_called smiles fmt w in
  let steps m :=
    convert_parsed tk (length (heap w)) out fmt generate_3d size (push m parsed) in
  (run.1 = Normal true <->
     (exists m w2,
         tk_MolFromSmiles tk smiles = Normal (Some m)
         /\ steps m = (Normal tt, w2))
     /\ nonempty_file (files run.2) out = true)
  /\ (tk_MolFromSmiles tk smiles = Normal None ->
      run = (Normal false, emit [Print "Invalid SMILES string"] parsed))
  /\ (forall msg,
        tk_MolFromSmiles tk smiles = Raised (Exception msg) ->
        run = (Normal false, emit [Print ("Conversion failed: " +:+ msg)] parsed))
  /\ (forall m msg w2,
        tk_MolFromSmiles tk smiles = Normal (Some m) ->
        steps m = (Raised (Exception msg), w2) ->
        run = (Normal false, emit [Print ("Conversion failed: " +:+ msg)] w2))
  /\ (tk_MolFromSmiles tk smiles = Raised KeyboardInterrupt ->
      run = (Raised KeyboardInterrupt, parsed))
  /\ (forall m w2,
        tk_MolFromSmiles tk smiles = Normal (Some m) ->
        steps m = (Raised KeyboardInterrupt, w2) ->
        run = (Raised KeyboardInterrupt, w2))
  /\ (forall m w2,
        tk_MolFromSmiles tk smiles = Normal (Some m) ->
        steps m = (Normal tt, w2) ->
        run.1 = Normal (nonempty_file (files w2) out) /\ files run.2 = files w2).
Proof.
  cbv zeta. split; [apply returns_true_iff|].
  rewrite run_convert_smiles.
  split; [by intros ->|]. split; [by intros msg ->|].
  split; [by intros m msg w2 -> ->|]. split; [by intros ->|].
  split; [by intros m w2 -> ->|].
  intros m w2 -> ->. rewrite run_check_output.
  by destruct (nonempty_file (files w2) out).
Qed.

(** C2: when the toolkit gives the failure value for the SMILES string,
    convert_smiles prints "Invalid SMILES string" and returns false; it
    does not raise. *)
Theorem invalid_smiles_returns_false smiles out fmt generate_3d size w :
  tk_MolFromSmiles tk smiles = Normal None ->
  let run := convert_smiles tk smiles out fmt generate_3d size w in
  run.1 = Normal false
  /\ trace run.2 =
       trace w ++
       [Print ("Converting SMILES to " +:+ PyStr.upper fmt +:+ ": " +:+ smiles);
        Print ("Parsing SMILES: " +:+ smiles);
        CallMolFromSmiles smiles;
        Print "Invalid SMILES string"]
  /\ files run.2 = files w.
Proof.
  intros Hparse. cbv zeta. rewrite run_convert_smiles, Hparse.
  unfold parse_called. rewrite emit_emit. done.
Qed.

(** C9, as amended: with a format that is none of pdb, mol and png and a
    SMILES string that parses, the call invokes no writer and leaves the
    files as they were; it returns true exactly when every step after the
    parse returned and a non-empty file was already at the output path. *)
Theorem unknown_format_reports_stale_file smiles out fmt generate_3d size w m :
  PyStr.in_list fmt ["pdb"; "mol"; "png"] = false ->
  tk_MolFromSmiles tk smiles = Normal (Some m) ->
  let run := convert_smiles tk smiles out fmt generate_3d size w in
  files run.2 = files w
  /\ (exists evs, trace run.2 = trace w ++ evs
                  /\ forallb (fun e => negb (is_writer e)) evs = true)
  /\ (run.1 = Normal true <->
        (exists w2,
            convert_parsed tk (length (heap w)) out fmt generate_3d size
              (push m (parse_called smiles fmt w)) = (Normal tt, w2))
        /\ nonempty_file (files w) out = true).
Proof.
  intros Hfmt Hparse. cbv zeta.
  destruct (writes_nothing_convert_smiles smiles out fmt generate_3d size Hfmt w)
    as [Hfiles Htrace].
  split; [done|]. split; [done|].
  rewrite <- Hfiles.
  pose proof (returns_true_iff smiles out fmt generate_3d size w) as Hiff.
  cbv zeta in Hiff. rewrite Hiff. split.
  - intros [(m' & w2 & Hm & Hsteps) Hfile]. split; [|done].
    exists w2. congruence.
  - intros [(w2 & Hsteps) Hfile]. split; [|done]. by exists m, w2.
Qed.

End Conversion.

(** * Hydrogens and coordinates *)

Section Coordinates.

Variable tk : Toolkit.
Variables (smiles out fmt : string) (size : Z) (w : World tk).
Variables (m mh : Mol tk) (formula : string).
Hypothesis Hparse : tk_MolFromSmiles tk smiles = Normal (Some m).
Hypothesis Hformula : tk_MolToSmiles tk m = Normal formula.
Hypothesis Haddhs : tk_AddHs tk m = Normal mh.
Hypothesis Hfmt : String.eqb fmt "png" = false.

Let mol : handle := length (heap w).
Let mol_with_h : handle := S (length (heap w)).
Let w1 : World tk := with_hydrogens smiles fmt formula m mh w.


Let Hlive : heap w1 !! mol_with_h = Some mh :=
  proj2 (lookup_with_hydrogens tk smiles fmt formula m mh w).

(** C3, as amended: with generate_3d and a format other than png,
    convert_smiles goes on, after the hydrogens, with the 3D block on
    the new molecule.  The block calls the ETKDG embedding first; on -1
    it calls the default embedding; when the embedding has returned it
    calls the minimization, and a result other than 0 only adds a
    warning.  When a step raises an exception of class Exception, the
    block prints the warning and computes the 2D layout of the molecule;
    a keyboard interrupt is not caught and leaves the block. *)
Theorem generate_3d_falls_back :
  convert_smiles tk smiles out fmt true size w =
    try_except tk
      (generate_3d_coordinates tk mol_with_h;;
       save_molecule tk mol_with_h out fmt;;
       check_output tk out)
      (conversion_failed tk) w1
  /\ (forall e m1,
        tk_EmbedMolecule tk mh ETKDG = (Raised e, m1) ->
        generate_3d_coordinates tk mol_with_h w1 =
          match e with
          | Exception msg =>
              laid_out_2d mol_with_h m1
                (embedding_events mol_with_h ++ use_2d_events mol_with_h msg) w1
          | KeyboardInterrupt =>
              (Raised KeyboardInterrupt,
               set_mol mol_with_h m1 (emit (embedding_events mol_with_h) w1))
          end)
  /\ (forall m1 e m2,
        tk_EmbedMolecule tk mh ETKDG = (Normal (-1), m1) ->
        tk_EmbedMolecule tk m1 DefaultEmbedding = (Raised e, m2) ->
        generate_3d_coordinates tk mol_with_h w1 =
          match e with
          | Exception msg =>
              laid_out_2d mol_with_h m2
                (embedding_events mol_with_h ++ retry_events mol_with_h
                 ++ use_2d_events mol_with_h msg) w1
          | KeyboardInterrupt =>
              (Raised KeyboardInterrupt,
               set_mol mol_with_h m2
                 (emit (embedding_events mol_with_h ++ retry_events mol_with_h) w1))
          end)
  /\ (forall evs m2,
        embedded tk mol_with_h mh evs m2 ->
        generate_3d_coordinates tk mol_with_h w1 =
          match tk_MMFFOptimizeMolecule tk m2 with
          | (Normal c, m3) =>
              (Normal tt,
               set_mol mol_with_h m3
                 (emit (evs ++ minimized_events mol_with_h (c =? 0)) w1))
          | (Raised (Exception msg), m3) =>
              laid_out_2d mol_with_h m3
                (evs ++ [CallMMFFOptimizeMolecule mol_with_h]
                 ++ use_2d_events mol_with_h msg) w1
          | (Raised KeyboardInterrupt, m3) =>
              (Raised KeyboardInterrupt,
               set_mol mol_with_h m3
                 (emit (evs ++ [CallMMFFOptimizeMolecule mol_with_h]) w1))
          end).
Proof.
  split; [by apply (convert_smiles_with_hydrogens tk smiles out fmt true)|].
  split; [intros e m1; by apply generate_3d_etkdg_raises|].
  split; [intros m1 e m2; by apply generate_3d_retry_raises|].
  intros evs m2. by apply generate_3d_embedded.
Qed.

(** C10: when the ETKDG embedding gives -1 and the default embedding
    returns, whatever it returns (so also -1), nothing is printed and
    nothing is tested: the next call is the minimization, on the
    molecule as the second embedding left it, and the block ends as it
    does after an embedding that worked. *)
Theorem retry_result_is_discarded m1 r m2 :
  tk_EmbedMolecule tk mh ETKDG = (Normal (-1), m1) ->
  tk_EmbedMolecule tk m1 DefaultEmbedding = (Normal r, m2) ->
  convert_smiles tk smiles out fmt true size w =
    try_except tk
      (generate_3d_coordinates tk mol_with_h;;
       save_molecule tk mol_with_h out fmt;;
       check_output tk out)
      (conversion_failed tk) w1
  /\ generate_3d_coordinates tk mol_with_h w1 =
       let evs :=
         [Print "Generating 3D coordinates...";
          CallEmbedMolecule mol_with_h ETKDG;
          Print "First embedding failed, trying alternative method...";
          CallEmbedMolecule mol_with_h DefaultEmbedding;
          CallMMFFOptimizeMolecule mol_with_h] in
       match tk_MMFFOptimizeMolecule tk m2 with
       | (Normal c, m3) =>
           (Normal tt,
            set_mol mol_with_h m3
              (emit (evs ++ (if c =? 0 then []
                             else [Print "Energy minimization may not have fully converged"])
                     ++ [Print "3D coordinates generated successfully"]) w1))
       | (Raised (Exception msg), m3) =>
           laid_out_2d mol_with_h m3 (evs ++ use_2d_events mol_with_h msg) w1
       | (Raised KeyboardInterrupt, m3) =>
           (Raised KeyboardInterrupt, set_mol mol_with_h m3 (emit evs w1))
       end.
Proof.
  intros HE HD.
  split; [by apply (convert_smiles_with_hydrogens tk smiles out fmt true)|].
  rewrite (generate_3d_embedded tk mol_with_h w1 mh Hlive
             (embedding_events mol_with_h ++ retry_events mol_with_h) m2)
    by (right; by exists m1, r).
  cbv zeta. by destruct (tk_MMFFOptimizeMolecule tk m2) as [[c|[|msg]] m3].
Qed.

End Coordinates.

(** * The interactive loop *)

Section Strings.

Import PyStr.

Lemma endswith_unfold s suffix :
  endswith s suffix =
    String.eqb s suffix
    || match s with
       | String _ s' => endswith s' suffix
       | EmptyString => false
       end.
Proof. by destruct s. Qed.

(** [endswith] holds exactly of the strings that are a stem followed by
    the suffix. *)
Lemma endswith_iff s suffix :
  endswith s suffix = true <-> exists stem, s = stem +:+ suffix.
Proof.
  split.
  - induction s as [|c s IH]; rewrite endswith_unfold; intros H;
      apply orb_prop in H as [H|H].
    + apply String.eqb_eq in H as <-. by exists "".
    + discriminate.
    + apply String.eqb_eq in H as <-. by exists "".
    + destruct (IH H) as [stem ->]. by exists (String c stem).
  - intros [stem ->]. induction stem as [|c stem IH]; rewrite endswith_unfold.
    + cbn [String.append]. by rewrite String.eqb_refl.
    + change (String c stem +:+ suffix) with (String c (stem +:+ suffix)).
      cbv beta iota. rewrite IH. apply orb_true_r.
Qed.

End Strings.

Section Interactive.

Variable tk : Toolkit.
Implicit Types (w : World tk).
Import PyStr.

Lemma run_input {B} text (k : string -> M tk B) w line rest :
  stdin w = Normal line :: rest ->
  (input tk text ≫= k) w = k line (read_line (emit [Prompt text] w)).
Proof. intros H. rewrite run_bind. unfold input. by rewrite H. Qed.

Lemma menu_returns w : (menu tk w).1 = Normal tt.
Proof. reflexivity. Qed.

(** C5, as amended: in the PNG branch, a size that is empty once
    stripped gives 200 without a message; a size that int() refuses, or
    one that is zero or below, gives 200 and the message "Invalid size,
    using default 200px" is printed; a size above zero is kept. *)
Theorem image_size_defaults w line rest :
  stdin w = Normal line :: rest ->
  let size_input := strip line in
  let asked :=
    read_line
      (emit [Print (nl +:+ times "-" 40);
             Print "Enter image size in pixels (e.g., 400 for 400x400px)";
             Print (times "-" 40);
             Prompt "Image size (px) [default: 200px]: "] w) in
  let png (n : Z) : outcome (string * string * bool * Z) :=
    Normal ("png", ".png", false, n) in
  (size_input = "" -> settings tk "5" w = (png 200, asked))
  /\ (size_input <> "" -> int size_input = None ->
      settings tk "5" w = (png 200, emit [Print invalid_size] asked))
  /\ (forall n, size_input <> "" -> int size_input = Some n -> n <= 0 ->
      settings tk "5" w = (png 200, emit [Print invalid_size] asked))
  /\ (forall n, size_input <> "" -> int size_input = Some n -> 0 < n ->
      settings tk "5" w = (png n, asked)).
Proof.
  intros Hin size_input asked png.
  assert (Hrun : settings tk "5" w =
    if String.eqb size_input "" then (png 200, asked)
    else match int size_input with
         | Some n => if n <=? 0 then (png 200, emit [Print invalid_size] asked)
                     else (png n, asked)
         | None => (png 200, emit [Print invalid_size] asked)
         end).
  { unfold settings. rewrite String.eqb_refl. unfold ask_image_size.
    rewrite run_bind_assoc, run_print, run_bind_assoc, run_print.
    rewrite run_bind_assoc, run_print, run_bind_assoc.
    rewrite (run_input _ _ _ line rest) by done.
    rewrite !emit_emit. fold size_input. cbn [app]. fold asked.
    destruct (String.eqb size_input ""); [done|].
    destruct (int size_input) as [n|]; [|done].
    by destruct (n <=? 0). }
  rewrite Hrun. repeat split.
  - intros ->. done.
  - intros Hne Hint. apply String.eqb_neq in Hne. by rewrite Hne, Hint.
  - intros n Hne Hint Hn. apply String.eqb_neq in Hne. apply Z.leb_le in Hn.
    by rewrite Hne, Hint, Hn.
  - intros n Hne Hint Hn. apply String.eqb_neq in Hne. apply Z.leb_gt in Hn.
    by rewrite Hne, Hint, Hn.
Qed.

(** The body of the [try] up to the last prompt is the collection of the
    request and then its conversion. *)
Lemma before_continue_prompt_split w :
  before_continue_prompt tk w =
    (r ← collect_request tk;
     match r with
     | inl c => mret (Some c)
     | inr req => convert_request tk req;; mret None
     end) w.
Proof.
  unfold before_continue_prompt, collect_request.
  rewrite run_bind_assoc, !(run_bind tk (input tk _)).
  destruct (input tk "Please select an option (1-6): " w) as [[line|e] w1]; [|done].
  cbv zeta. destruct (String.eqb (strip line) "6"); [done|].
  destruct (negb (in_list (strip line) ["1"; "2"; "3"; "4"; "5"])); [done|].
  rewrite ?run_bind_assoc, !run_print, ?run_bind_assoc, !(run_bind tk (input tk _)).
  destruct (input tk "Enter SMILES string: " _) as [[line'|e] w2]; [|done].
  cbv zeta. destruct (String.eqb (strip line') ""); [done|].
  rewrite ?run_bind_assoc, !(run_bind tk (settings tk _)).
  destruct (settings tk (strip line) w2) as [[[[[fmt ext] g3] n]|e] w3]; [|done].
  rewrite ?run_bind_assoc, !(run_bind tk (ask_output_name tk _)).
  destruct (ask_output_name tk ext w3) as [[name|e] w4]; [|done].
  rewrite (run_bind tk (mret _)). unfold convert_request.
  unfold mret, M_ret, ret. cbv iota beta.
  rewrite !run_print.
  rewrite run_bind_assoc, run_print, run_bind_assoc, run_print, run_bind_assoc.
  rewrite !(run_bind tk (convert_smiles tk _ _ _ _ _)).
  destruct (convert_smiles tk (strip line') name fmt g3 n _) as [[[]|e] w5]; done.
Qed.

(** C6: the output file name.  With the answer stripped: an empty name
    gives output<ext>; a name that does not end with <ext> gets <ext>
    appended; a name that ends with <ext> is kept.  <ext> is the
    extension that goes with the format of the menu choice: pdb and .pdb
    for the choices 1 and 2, mol and .mol for 3 and 4, png and .png for 5;
    and the name made with it is the one the loop passes on to the
    conversion. *)
Theorem output_name_defaults default_ext w line rest :
  stdin w = Normal line :: rest ->
  let name := strip line in
  let asked :=
    read_line
      (emit [Prompt ("Enter output filename (default: output" +:+ default_ext
                     +:+ "): ")] w) in
  let smiles_asked w0 :=
    read_line
      (emit [Prompt smiles_prompt]
         (emit [Print (nl +:+ times "=" 40)]
            (read_line (emit [Prompt choice_prompt] w0)))) in
  (name = "" ->
   ask_output_name tk default_ext w = (Normal ("output" +:+ default_ext), asked))
  /\ (name <> "" -> ~ (exists stem, name = stem +:+ default_ext) ->
      ask_output_name tk default_ext w = (Normal (name +:+ default_ext), asked))
  /\ (name <> "" -> (exists stem, name = stem +:+ default_ext) ->
      ask_output_name tk default_ext w = (Normal name, asked))
  /\ (forall choice w0 fmt ext g3 n w',
        settings tk choice w0 = (Normal (fmt, ext, g3, n), w') ->
        ext = "." +:+ fmt /\ in_list fmt ["pdb"; "mol"; "png"] = true
        /\ (choice = "1" \/ choice = "2" -> fmt = "pdb")
        /\ (choice = "3" \/ choice = "4" -> fmt = "mol")
        /\ (choice = "5" -> fmt = "png"))
  /\ (forall w0,
        settings tk "1" w0 = (Normal ("pdb", ".pdb", true, 200), w0)
        /\ settings tk "2" w0 = (Normal ("pdb", ".pdb", false, 200), w0)
        /\ settings tk "3" w0 = (Normal ("mol", ".mol", true, 200), w0)
        /\ settings tk "4" w0 = (Normal ("mol", ".mol", false, 200), w0))
  /\ (forall w0 choice_line smiles_line rest0 fmt ext g3 n w1 out w2,
        stdin w0 = Normal choice_line :: Normal smiles_line :: rest0 ->
        in_list (strip choice_line) ["1"; "2"; "3"; "4"; "5"] = true ->
        strip smiles_line <> "" ->
        settings tk (strip choice_line) (smiles_asked w0)
          = (Normal (fmt, ext, g3, n), w1) ->
        ask_output_name tk ext w1 = (Normal out, w2) ->
        before_continue_prompt tk w0 =
          (convert_request tk (strip smiles_line, out, fmt, g3, n);; mret None) w2).
Proof.
  intros Hin name asked smiles_asked.
  assert (Hrun : ask_output_name tk default_ext w =
    if String.eqb name "" then (Normal ("output" +:+ default_ext), asked)
    else if negb (endswith name default_ext)
         then (Normal (name +:+ default_ext), asked)
         else (Normal name, asked)).
  { unfold ask_output_name. rewrite (run_input _ _ _ line rest) by done.
    fold name asked. destruct (String.eqb name ""); [done|].
    by destruct (endswith name default_ext). }
  rewrite Hrun. split; [|split; [|split; [|split; [|split]]]].
  - intros ->. done.
  - intros Hne Hend. apply String.eqb_neq in Hne. rewrite Hne.
    destruct (endswith name default_ext) eqn:E; [|done].
    apply endswith_iff in E. contradiction.
  - intros Hne Hend. apply String.eqb_neq in Hne. rewrite Hne.
    apply endswith_iff in Hend. by rewrite Hend.
  - intros choice w0 fmt ext g3 n w' H. unfold settings in H.
    destruct (String.eqb choice "5") eqn:Hfive.
    + rewrite run_bind in H.
      destruct (ask_image_size tk w0) as [[k|e] w'']; [|discriminate].
      injection H as <- <- _ _ _. apply String.eqb_eq in Hfive as ->.
      repeat split; try done; intros [H|H]; discriminate.
    + apply String.eqb_neq in Hfive.
      destruct (in_list choice ["1"; "2"]) eqn:Hpdb; injection H as <- <- _ _ _;
        (repeat split; try done); intros Hc;
        try (destruct Hc as [Hc | Hc]); subst choice;
        try (vm_compute in Hpdb; discriminate); congruence.
  - intros w0. repeat split.
  - intros w0 choice_line smiles_line rest0 fmt ext g3 n w1 out w2
      Hin0 Hchoice Hsmiles Hset Hout.
    unfold smiles_asked, smiles_prompt, choice_prompt in Hset.
    rewrite before_continue_prompt_split, run_bind.
    assert (Hreq : collect_request tk w0 =
                     (Normal (inr (strip smiles_line, out, fmt, g3, n)), w2)).
    { unfold collect_request.
      rewrite (run_input _ _ _ choice_line (Normal smiles_line :: rest0)) by done.
      cbv zeta. rewrite Hchoice. cbn [negb].
      assert (Hsix : String.eqb (strip choice_line) "6" = false).
      { apply String.eqb_neq. intros E. rewrite E in Hchoice. discriminate. }
      rewrite Hsix, run_print.
      rewrite (run_input _ _ _ smiles_line rest0)
        by (cbn [stdin emit read_line]; by rewrite Hin0).
      cbv zeta. apply String.eqb_neq in Hsmiles. rewrite Hsmiles.
      rewrite run_bind, Hset. rewrite run_bind, Hout. done. }
    by rewrite Hreq.
Qed.

(** C7: within one iteration, a keyboard interrupt raised in the body of
    the [try] is caught: the interruption message is printed and the
    loop ends; any other exception is caught, its message is printed
    and the loop goes on with the next iteration. *)
Theorem iteration_catches n w e w1 :
  try_body tk (menu tk w).2 = (Raised e, w1) ->
  while_true tk (S n) (iteration tk) w =
    match e with
    | KeyboardInterrupt => (Normal true, emit [Print interrupted] w1)
    | Exception msg =>
        while_true tk n (iteration tk)
          (emit [Print (nl +:+ Glyph.cross +:+ " An error occurred: " +:+ msg)] w1)
    end.
Proof.
  intros Hbody. cbn [while_true]. rewrite run_bind.
  unfold iteration at 1. rewrite run_bind.
  pose proof (menu_returns w) as Hmenu.
  destruct (menu tk w) as [r w0]. cbn [fst snd] in *. subst r.
  unfold try_except_interrupt. rewrite Hbody.
  destruct e as [|msg]; reflexivity.
Qed.

(** C8: at the last prompt of an iteration, an answer that is not
    affirmative (y or yes, once stripped and in lower case) ends the
    loop after the goodbye message; an affirmative answer starts another
    iteration. *)
Theorem continue_prompt_decides n w w1 answer rest :
  before_continue_prompt tk (menu tk w).2 = (Normal None, w1) ->
  stdin w1 = Normal answer :: rest ->
  let w2 := read_line (emit [Prompt "Perform another operation? (y/n): "] w1) in
  (affirmative answer = true <->
     lower (strip answer) = "y" \/ lower (strip answer) = "yes")
  /\ while_true tk (S n) (iteration tk) w =
       if affirmative answer then while_true tk n (iteration tk) w2
       else (Normal true, emit [Print goodbye] w2).
Proof.
  intros Hbefore Hin w2. split.
  - unfold affirmative, in_list. cbn [existsb].
    rewrite !orb_true_iff, !String.eqb_eq. intuition discriminate.
  - cbn [while_true]. rewrite run_bind.
    unfold iteration at 1. rewrite run_bind.
    pose proof (menu_returns w) as Hmenu.
    destruct (menu tk w) as [r w0]. cbn [fst snd] in *. subst r.
    unfold try_except_interrupt, try_body. rewrite run_bind, Hbefore.
    unfold continue_prompt. rewrite (run_input _ _ _ answer rest) by done.
    fold w2. by destruct (affirmative answer).
Qed.

End Interactive.

(** * Closed runs *)

Import PyStr.

(** C1, the claim as it stands fails: the SMILES string does not parse,
    a file of five bytes is at the output path, and the call returns
    false. *)
Lemma stale_file_invalid_smiles :
  let run := convert_smiles (Toy.toolkit Toy.fine) "invalid_smiles_###" "out.pdb"
               "pdb" true 200 (Toy.world Toy.fine (Toy.stale "out.pdb") []) in
  ~ (run.1 = Normal true <-> nonempty_file (files run.2) "out.pdb" = true).
Proof.
  cbv zeta. intros [_ H].
  assert (Hfile : nonempty_file
            (files (convert_smiles (Toy.toolkit Toy.fine) "invalid_smiles_###"
                      "out.pdb" "pdb" true 200
                      (Toy.world Toy.fine (Toy.stale "out.pdb") [])).2)
            "out.pdb" = true) by (vm_compute; reflexivity).
  specialize (H Hfile). vm_compute in H. discriminate.
Qed.

(** C1, as amended, on runs that end in each of the three ways: adding
    hydrogens raises and a file of five bytes is at the output path, so
    the call returns false; the first embedding is interrupted, so the
    interrupt leaves the call; every step answers, so the call returns the
    test of the file the writer left. *)
Lemma convert_smiles_true_iff_witness :
  let broken := Toy.toolkit Toy.broken_hydrogens in
  let w := Toy.world Toy.broken_hydrogens (Toy.stale "out.pdb") [] in
  let steps :=
    convert_parsed broken (length (heap w)) "out.pdb" "pdb" true 200
      (push (tk:=broken) Toy.ethanol (parse_called "CCO" "pdb" w)) in
  let stopped := Toy.toolkit Toy.interrupted_embedding in
  let v := Toy.world Toy.interrupted_embedding ∅ [] in
  let steps_v :=
    convert_parsed stopped (length (heap v)) "out.pdb" "pdb" true 200
      (push (tk:=stopped) Toy.ethanol (parse_called "CCO" "pdb" v)) in
  let fine := Toy.toolkit Toy.fine in
  let u := Toy.world Toy.fine ∅ [] in
  let steps_u :=
    convert_parsed fine (length (heap u)) "out.pdb" "pdb" true 200
      (push (tk:=fine) Toy.ethanol (parse_called "CCO" "pdb" u)) in
  (tk_MolFromSmiles broken "CCO" = Normal (Some Toy.ethanol)
   /\ steps = (Raised (Exception "no hydrogens"), steps.2)
   /\ nonempty_file (files steps.2) "out.pdb" = true
   /\ convert_smiles broken "CCO" "out.pdb" "pdb" true 200 w
      = (Normal false,
         emit [Print ("Conversion failed: " +:+ "no hydrogens")] steps.2))
  /\ (tk_MolFromSmiles stopped "CCO" = Normal (Some Toy.ethanol)
      /\ steps_v = (Raised KeyboardInterrupt, steps_v.2)
      /\ convert_smiles stopped "CCO" "out.pdb" "pdb" true 200 v
         = (Raised KeyboardInterrupt, steps_v.2))
  /\ (tk_MolFromSmiles fine "CCO" = Normal (Some Toy.ethanol)
      /\ steps_u = (Normal tt, steps_u.2)
      /\ nonempty_file (files steps_u.2) "out.pdb" = true
      /\ (convert_smiles fine "CCO" "out.pdb" "pdb" true 200 u).1 = Normal true).
Proof.
  cbv zeta. split; [|split].
  - assert (Hsteps :
      convert_parsed (Toy.toolkit Toy.broken_hydrogens)
        (length (heap (Toy.world Toy.broken_hydrogens (Toy.stale "out.pdb") [])))
        "out.pdb" "pdb" true 200
        (push (tk:=Toy.toolkit Toy.broken_hydrogens) Toy.ethanol
           (parse_called "CCO" "pdb"
              (Toy.world Toy.broken_hydrogens (Toy.stale "out.pdb") [])))
      = (Raised (Exception "no hydrogens"),
         (convert_parsed (Toy.toolkit Toy.broken_hydrogens)
            (length (heap (Toy.world Toy.broken_hydrogens (Toy.stale "out.pdb") [])))
            "out.pdb" "pdb" true 200
            (push (tk:=Toy.toolkit Toy.broken_hydrogens) Toy.ethanol
               (parse_called "CCO" "pdb"
                  (Toy.world Toy.broken_hydrogens (Toy.stale "out.pdb") [])))).2))
      by (vm_compute; reflexivity).
    split; [reflexivity|]. split; [exact Hsteps|].
    split; [vm_compute; reflexivity|].
    exact (proj1 (proj2 (proj2 (proj2
             (convert_smiles_true_iff (Toy.toolkit Toy.broken_hydrogens) "CCO" "out.pdb"
                "pdb" true 200
                (Toy.world Toy.broken_hydrogens (Toy.stale "out.pdb") [])))))
             Toy.ethanol "no hydrogens" _ eq_refl Hsteps).
  - assert (Hsteps :
      convert_parsed (Toy.toolkit Toy.interrupted_embedding)
        (length (heap (Toy.world Toy.interrupted_embedding ∅ [])))
        "out.pdb" "pdb" true 200
        (push (tk:=Toy.toolkit Toy.interrupted_embedding) Toy.ethanol
           (parse_called "CCO" "pdb" (Toy.world Toy.interrupted_embedding ∅ [])))
      = (Raised KeyboardInterrupt,
         (convert_parsed (Toy.toolkit Toy.interrupted_embedding)
            (length (heap (Toy.world Toy.interrupted_embedding ∅ [])))
            "out.pdb" "pdb" true 200
            (push (tk:=Toy.toolkit Toy.interrupted_embedding) Toy.ethanol
               (parse_called "CCO" "pdb"
                  (Toy.world Toy.interrupted_embedding ∅ [])))).2))
      by (vm_compute; reflexivity).
    split; [reflexivity|]. split; [exact Hsteps|].
    exact (proj1 (proj2 (proj2 (proj2 (proj2 (proj2
             (convert_smiles_true_iff (Toy.toolkit Toy.interrupted_embedding) "CCO"
                "out.pdb" "pdb" true 200
                (Toy.world Toy.interrupted_embedding ∅ [])))))))
             Toy.ethanol _ eq_refl Hsteps).
  - assert (Hsteps :
      convert_parsed (Toy.toolkit Toy.fine)
        (length (heap (Toy.world Toy.fine ∅ []))) "out.pdb" "pdb" true 200
        (push (tk:=Toy.toolkit Toy.fine) Toy.ethanol
           (parse_called "CCO" "pdb" (Toy.world Toy.fine ∅ [])))
      = (Normal tt,
         (convert_parsed (Toy.toolkit Toy.fine)
            (length (heap (Toy.world Toy.fine ∅ []))) "out.pdb" "pdb" true 200
            (push (tk:=Toy.toolkit Toy.fine) Toy.ethanol
               (parse_called "CCO" "pdb" (Toy.world Toy.fine ∅ [])))).2))
      by (vm_compute; reflexivity).
    assert (Hfile :
      nonempty_file
        (files (convert_parsed (Toy.toolkit Toy.fine)
                  (length (heap (Toy.world Toy.fine ∅ []))) "out.pdb" "pdb" true 200
                  (push (tk:=Toy.toolkit Toy.fine) Toy.ethanol
                     (parse_called "CCO" "pdb" (Toy.world Toy.fine ∅ [])))).2)
        "out.pdb" = true) by (vm_compute; reflexivity).
    split; [reflexivity|]. split; [exact Hsteps|]. split; [exact Hfile|].
    rewrite <- Hfile.
    exact (proj1 (proj2 (proj2 (proj2 (proj2 (proj2 (proj2
             (convert_smiles_true_iff (Toy.toolkit Toy.fine) "CCO" "out.pdb" "pdb"
                true 200 (Toy.world Toy.fine ∅ []))))))) Toy.ethanol _ eq_refl Hsteps)).
Defined.

Lemma invalid_smiles_returns_false_witness :
  let tk := Toy.toolkit Toy.fine in
  let w := Toy.world Toy.fine ∅ [] in
  tk_MolFromSmiles tk "invalid_smiles_###" = Normal None
  /\ let run := convert_smiles tk "invalid_smiles_###" "out.pdb" "pdb" true 200 w in
     run.1 = Normal false
     /\ trace run.2 =
          trace w ++
          [Print ("Converting SMILES to " +:+ upper "pdb" +:+ ": "
                  +:+ "invalid_smiles_###");
           Print ("Parsing SMILES: " +:+ "invalid_smiles_###");
           CallMolFromSmiles "invalid_smiles_###";
           Print "Invalid SMILES string"]
     /\ files run.2 = files w.
Proof.
  split; [reflexivity|].
  apply (invalid_smiles_returns_false (Toy.toolkit Toy.fine)). reflexivity.
Defined.

(** C9, the claim as it stands fails: the format is unknown, the SMILES
    string parses, a file of five bytes is at the output path, adding
    hydrogens raises, and the call returns false. *)
Lemma stale_file_broken_step :
  let w := Toy.world Toy.broken_hydrogens (Toy.stale "out.xyz") [] in
  let run := convert_smiles (Toy.toolkit Toy.broken_hydrogens) "CCO" "out.xyz"
               "xyz" true 200 w in
  ~ (run.1 = Normal true <-> nonempty_file (files w) "out.xyz" = true).
Proof.
  cbv zeta. intros [_ H].
  assert (Hfile : nonempty_file
            (files (Toy.world Toy.broken_hydrogens (Toy.stale "out.xyz") []))
            "out.xyz" = true) by (vm_compute; reflexivity).
  specialize (H Hfile). vm_compute in H. discriminate.
Qed.

Lemma unknown_format_reports_stale_file_witness :
  let tk := Toy.toolkit Toy.fine in
  let w := Toy.world Toy.fine (Toy.stale "out.xyz") [] in
  in_list "xyz" ["pdb"; "mol"; "png"] = false
  /\ tk_MolFromSmiles tk "CCO" = Normal (Some Toy.ethanol)
  /\ let run := convert_smiles tk "CCO" "out.xyz" "xyz" true 200 w in
     files run.2 = files w
     /\ (exists evs, trace run.2 = trace w ++ evs
                     /\ forallb (fun e => negb (is_writer e)) evs = true)
     /\ (run.1 = Normal true <->
           (exists w2,
               convert_parsed tk (length (heap w)) "out.xyz" "xyz" true 200
                 (push (tk:=tk) Toy.ethanol (parse_called "CCO" "xyz" w))
               = (Normal tt, w2))
           /\ nonempty_file (files w) "out.xyz" = true).
Proof.
  split; [reflexivity|]. split; [reflexivity|].
  apply (unknown_format_reports_stale_file (Toy.toolkit Toy.fine)); reflexivity.
Defined.



(** C3, the claim as it stands fails: the user interrupts the ETKDG
    embedding; the interrupt is not caught, no warning is printed, no 2D
    layout is computed, and convert_smiles itself raises. *)
Lemma interrupt_leaves_3d_block :
  let tk := Toy.toolkit Toy.interrupted_embedding in
  let run := convert_smiles tk "CCO" "out.pdb" "pdb" true 200
               (Toy.world Toy.interrupted_embedding ∅ []) in
  run.1 = Raised KeyboardInterrupt
  /\ trace run.2 =
       [Print "Converting SMILES to PDB: CCO"; Print "Parsing SMILES: CCO";
        CallMolFromSmiles "CCO"; Print "Successfully parsed SMILES";
        CallMolToSmiles 0; Print "Molecular formula: CCO";
        CallGetNumAtoms 0; Print "Number of atoms: 3";
        CallAddHs 0; CallGetNumAtoms 1;
        Print "Number of atoms after adding hydrogens: 9";
        Print "Generating 3D coordinates..."; CallEmbedMolecule 1 ETKDG].
Proof. cbv zeta. split; vm_compute; reflexivity. Qed.

Lemma generate_3d_falls_back_witness :
  let tk := Toy.toolkit Toy.broken_embedding in
  let w := Toy.world Toy.broken_embedding ∅ [] in
  let w1 := with_hydrogens (tk:=tk) "CCO" "pdb" "CCO" Toy.ethanol Toy.ethanol_h w in
  tk_MolFromSmiles tk "CCO" = Normal (Some Toy.ethanol)
  /\ tk_MolToSmiles tk Toy.ethanol = Normal "CCO"
  /\ tk_AddHs tk Toy.ethanol = Normal Toy.ethanol_h
  /\ String.eqb "pdb" "png" = false
  /\ tk_EmbedMolecule tk Toy.ethanol_h ETKDG
     = (Raised (Exception "embedding failed"), Toy.ethanol_h)
  /\ generate_3d_coordinates tk 1 w1 =
       laid_out_2d (tk:=tk) 1 Toy.ethanol_h
         (embedding_events 1 ++ use_2d_events 1 "embedding failed") w1.
Proof.
  do 5 (split; [reflexivity|]).
  exact (proj1 (proj2
           (generate_3d_falls_back (Toy.toolkit Toy.broken_embedding) "CCO" "out.pdb"
              "pdb" 200 (Toy.world Toy.broken_embedding ∅ []) Toy.ethanol
              Toy.ethanol_h "CCO" eq_refl eq_refl eq_refl eq_refl))
           (Exception "embedding failed") Toy.ethanol_h eq_refl).
Defined.

Lemma retry_result_is_discarded_witness :
  let tk := Toy.toolkit Toy.no_conformer in
  let w := Toy.world Toy.no_conformer ∅ [] in
  let w1 := with_hydrogens (tk:=tk) "CCO" "pdb" "CCO" Toy.ethanol Toy.ethanol_h w in
  tk_MolFromSmiles tk "CCO" = Normal (Some Toy.ethanol)
  /\ tk_MolToSmiles tk Toy.ethanol = Normal "CCO"
  /\ tk_AddHs tk Toy.ethanol = Normal Toy.ethanol_h
  /\ String.eqb "pdb" "png" = false
  /\ tk_EmbedMolecule tk Toy.ethanol_h ETKDG = (Normal (-1), Toy.ethanol_h)
  /\ tk_EmbedMolecule tk Toy.ethanol_h DefaultEmbedding = (Normal (-1), Toy.ethanol_h)
  /\ generate_3d_coordinates tk 1 w1 =
       laid_out_2d (tk:=tk) 1 Toy.ethanol_h
         ([Print "Generating 3D coordinates...";
           CallEmbedMolecule 1 ETKDG;
           Print "First embedding failed, trying alternative method...";
           CallEmbedMolecule 1 DefaultEmbedding;
           CallMMFFOptimizeMolecule 1]
          ++ use_2d_events 1 "Bad Conformer Id") w1.
Proof.
  do 6 (split; [reflexivity|]).
  exact (proj2
           (retry_result_is_discarded (Toy.toolkit Toy.no_conformer) "CCO" "out.pdb"
              "pdb" 200 (Toy.world Toy.no_conformer ∅ []) Toy.ethanol
              Toy.ethanol_h "CCO" eq_refl eq_refl eq_refl eq_refl
              Toy.ethanol_h (-1) Toy.ethanol_h eq_refl eq_refl)).
Defined.

(** C5, the claim as it stands fails: for the sizes "abc" and "-5" the
    default of 200 comes with a printed message. *)
Lemma invalid_size_is_reported :
  let tk := Toy.toolkit Toy.fine in
  let header :=
    [Print (nl +:+ times "-" 40);
     Print "Enter image size in pixels (e.g., 400 for 400x400px)";
     Print (times "-" 40);
     Prompt "Image size (px) [default: 200px]: "] in
  let run1 := settings tk "5" (Toy.world Toy.fine ∅ [Normal "abc"]) in
  let run2 := settings tk "5" (Toy.world Toy.fine ∅ [Normal "-5"]) in
  (run1.1 = Normal ("png", ".png", false, 200)
   /\ trace run1.2 = header ++ [Print invalid_size])
  /\ (run2.1 = Normal ("png", ".png", false, 200)
      /\ trace run2.2 = header ++ [Print invalid_size]).
Proof. cbv zeta. repeat split; vm_compute; reflexivity. Qed.

Lemma image_size_defaults_witness :
  let tk := Toy.toolkit Toy.fine in
  let w := Toy.world Toy.fine ∅ [Normal " abc "] in
  let asked :=
    read_line
      (emit [Print (nl +:+ times "-" 40);
             Print "Enter image size in pixels (e.g., 400 for 400x400px)";
             Print (times "-" 40);
             Prompt "Image size (px) [default: 200px]: "] w) in
  stdin w = [Normal " abc "]
  /\ strip " abc " <> ""
  /\ int (strip " abc ") = None
  /\ settings tk "5" w
     = (Normal ("png", ".png", false, 200), emit [Print invalid_size] asked).
Proof.
  split; [reflexivity|]. split; [vm_compute; discriminate|].
  split; [vm_compute; reflexivity|].
  apply (proj1 (proj2 (image_size_defaults (Toy.toolkit Toy.fine)
                         (Toy.world Toy.fine ∅ [Normal " abc "]) " abc " []
                         eq_refl))).
  - vm_compute; discriminate.
  - vm_compute; reflexivity.
Defined.

Lemma output_name_defaults_witness :
  let tk := Toy.toolkit Toy.fine in
  let w := Toy.world Toy.fine ∅ [Normal " ethanol "] in
  let asked :=
    read_line (emit [Prompt ("Enter output filename (default: output" +:+ ".pdb"
                             +:+ "): ")] w) in
  let w0 := Toy.world Toy.fine ∅ [Normal "3"; Normal "CCO"; Normal "  "] in
  let w1 :=
    read_line
      (emit [Prompt smiles_prompt]
         (emit [Print (nl +:+ times "=" 40)]
            (read_line (emit [Prompt choice_prompt] w0)))) in
  let w2 :=
    read_line (emit [Prompt ("Enter output filename (default: output" +:+ ".mol"
                             +:+ "): ")] w1) in
  (stdin w = [Normal " ethanol "]
   /\ strip " ethanol " <> ""
   /\ ~ (exists stem, strip " ethanol " = stem +:+ ".pdb")
   /\ ask_output_name tk ".pdb" w = (Normal (strip " ethanol " +:+ ".pdb"), asked)
   /\ strip " ethanol " +:+ ".pdb" = "ethanol.pdb")
  /\ (stdin w1 = [Normal "  "]
      /\ strip "  " = ""
      /\ settings tk "3" w1 = (Normal ("mol", ".mol", true, 200), w1)
      /\ ask_output_name tk ".mol" w1 = (Normal ("output" +:+ ".mol"), w2)
      /\ "output" +:+ ".mol" = "output.mol"
      /\ before_continue_prompt tk w0 =
           (convert_request tk (strip "CCO", "output" +:+ ".mol", "mol", true, 200);;
            mret None) w2).
Proof.
  cbv zeta. split.
  - assert (Hne : strip " ethanol " <> "") by (vm_compute; discriminate).
    assert (Hend : ~ (exists stem, strip " ethanol " = stem +:+ ".pdb")).
    { intros H. apply endswith_iff in H. vm_compute in H. discriminate. }
    split; [reflexivity|]. split; [exact Hne|]. split; [exact Hend|].
    split; [|vm_compute; reflexivity].
    exact (proj1 (proj2 (output_name_defaults (Toy.toolkit Toy.fine) ".pdb"
                           (Toy.world Toy.fine ∅ [Normal " ethanol "]) " ethanol " []
                           eq_refl)) Hne Hend).
  - pose proof (output_name_defaults (Toy.toolkit Toy.fine) ".mol"
                  (read_line
                     (emit [Prompt smiles_prompt]
                        (emit [Print (nl +:+ times "=" 40)]
                           (read_line
                              (emit [Prompt choice_prompt]
                                 (Toy.world Toy.fine ∅
                                    [Normal "3"; Normal "CCO"; Normal "  "]))))))
                  "  " [] eq_refl) as H.
    cbv zeta in H. destruct H as (Hempty & _ & _ & _ & Hset & Hloop).
    assert (Hne : strip "CCO" <> "") by (vm_compute; discriminate).
    split; [reflexivity|]. split; [reflexivity|].
    split; [exact (proj1 (proj2 (proj2 (Hset _))))|].
    split; [exact (Hempty eq_refl)|]. split; [reflexivity|].
    exact (Hloop (Toy.world Toy.fine ∅ [Normal "3"; Normal "CCO"; Normal "  "])
             "3" "CCO" [Normal "  "] "mol" ".mol" true 200 _ _ _
             eq_refl eq_refl Hne (proj1 (proj2 (proj2 (Hset _)))) (Hempty eq_refl)).
Defined.

Lemma iteration_catches_witness :
  let tk := Toy.toolkit Toy.fine in
  let w := Toy.world Toy.fine ∅ [Raised KeyboardInterrupt] in
  let w1 := (try_body tk (menu tk w).2).2 in
  let v := Toy.world Toy.fine ∅ [Normal "1"; Raised (Exception "EOF when reading a line")] in
  let v1 := (try_body tk (menu tk v).2).2 in
  (try_body tk (menu tk w).2 = (Raised KeyboardInterrupt, w1)
   /\ while_true tk 3 (iteration tk) w = (Normal true, emit [Print interrupted] w1))
  /\ (try_body tk (menu tk v).2 = (Raised (Exception "EOF when reading a line"), v1)
      /\ while_true tk 3 (iteration tk) v =
           while_true tk 2 (iteration tk)
             (emit [Print (nl +:+ Glyph.cross +:+ " An error occurred: "
                           +:+ "EOF when reading a line")] v1)).
Proof.
  cbv zeta. split.
  - assert (H : try_body (Toy.toolkit Toy.fine)
                  (menu (Toy.toolkit Toy.fine)
                     (Toy.world Toy.fine ∅ [Raised KeyboardInterrupt])).2
                = (Raised KeyboardInterrupt,
                   (try_body (Toy.toolkit Toy.fine)
                      (menu (Toy.toolkit Toy.fine)
                         (Toy.world Toy.fine ∅ [Raised KeyboardInterrupt])).2).2))
      by (vm_compute; reflexivity).
    split; [exact H|].
    exact (iteration_catches (Toy.toolkit Toy.fine) 2 _ KeyboardInterrupt _ H).
  - assert (H : try_body (Toy.toolkit Toy.fine)
                  (menu (Toy.toolkit Toy.fine)
                     (Toy.world Toy.fine ∅
                        [Normal "1"; Raised (Exception "EOF when reading a line")])).2
                = (Raised (Exception "EOF when reading a line"),
                   (try_body (Toy.toolkit Toy.fine)
                      (menu (Toy.toolkit Toy.fine)
                         (Toy.world Toy.fine ∅
                            [Normal "1";
                             Raised (Exception "EOF when reading a line")])).2).2))
      by (vm_compute; reflexivity).
    split; [exact H|].
    exact (iteration_catches (Toy.toolkit Toy.fine) 2 _
             (Exception "EOF when reading a line") _ H).
Defined.

Lemma continue_prompt_decides_witness :
  let tk := Toy.toolkit Toy.fine in
  let w := Toy.world Toy.fine ∅
             [Normal "1"; Normal "CCO"; Normal ""; Normal " Yes "; Normal "6"] in
  let w1 := (before_continue_prompt tk (menu tk w).2).2 in
  let w2 := read_line (emit [Prompt "Perform another operation? (y/n): "] w1) in
  before_continue_prompt tk (menu tk w).2 = (Normal None, w1)
  /\ stdin w1 = [Normal " Yes "; Normal "6"]
  /\ affirmative " Yes " = true
  /\ while_true tk 3 (iteration tk) w =
       if affirmative " Yes " then while_true tk 2 (iteration tk) w2
       else (Normal true, emit [Print goodbye] w2).
Proof.
  cbv zeta.
  assert (H : before_continue_prompt (Toy.toolkit Toy.fine)
                (menu (Toy.toolkit Toy.fine)
                   (Toy.world Toy.fine ∅
                      [Normal "1"; Normal "CCO"; Normal ""; Normal " Yes ";
                       Normal "6"])).2
              = (Normal None,
                 (before_continue_prompt (Toy.toolkit Toy.fine)
                    (menu (Toy.toolkit Toy.fine)
                       (Toy.world Toy.fine ∅
                          [Normal "1"; Normal "CCO"; Normal ""; Normal " Yes ";
                           Normal "6"])).2).2))
    by (vm_compute; reflexivity).
  assert (Hin : stdin (before_continue_prompt (Toy.toolkit Toy.fine)
                         (menu (Toy.toolkit Toy.fine)
                            (Toy.world Toy.fine ∅
                               [Normal "1"; Normal "CCO"; Normal ""; Normal " Yes ";
                                Normal "6"])).2).2
                = [Normal " Yes "; Normal "6"])
    by (vm_compute; reflexivity).
  split; [exact H|]. split; [exact Hin|]. split; [vm_compute; reflexivity|].
  exact (proj2 (continue_prompt_decides (Toy.toolkit Toy.fine) 2
                  (Toy.world Toy.fine ∅
                     [Normal "1"; Normal "CCO"; Normal ""; Normal " Yes ";
                      Normal "6"])
                  _ " Yes " [Normal "6"] H Hin)).
Defined.


(** * Sample values and runs *)

Example strip_sample : strip "  a b  " = "a b" /\ strip "   " = "".
Proof. split; reflexivity. Qed.

Example int_sample :
  int "400" = Some 400 /\ int "-3" = Some (-3) /\ int "+7" = Some 7
  /\ int "1_000" = Some 1000 /\ int "1__0" = None /\ int "_1" = None
  /\ int "abc" = None /\ int "" = None /\ int "+" = None
  /\ int "007" = Some 7 /\ int "4 0" = None /\ int "4.5" = None.
Proof. repeat split; reflexivity. Qed.

Example endswith_sample :
  endswith "a.pdb" ".pdb" = true /\ endswith "pdb" ".pdb" = false
  /\ endswith "a.pdbx" ".pdb" = false /\ endswith ".pdb" ".pdb" = true
  /\ endswith "a.PDB" ".pdb" = false.
Proof. repeat split; reflexivity. Qed.

Example case_sample : lower " YeS" = " yes" /\ upper "pdb" = "PDB".
Proof. split; reflexivity. Qed.

Example str_sample : str_Z 200 = "200" /\ str_Z (-5) = "-5" /\ str_nat 0 = "0".
Proof. repeat split; reflexivity. Qed.

(** Ethanol to PDB with 3D coordinates, into an empty directory. *)
Example ethanol_pdb_3d :
  let run := convert_smiles (Toy.toolkit Toy.fine) "CCO" "output.pdb" "pdb" true 200
               (Toy.world Toy.fine ∅ []) in
  run.1 = Normal true
  /\ files run.2 !! "output.pdb" = Some "PDB"
  /\ trace run.2 =
       [Print "Converting SMILES to PDB: CCO"; Print "Parsing SMILES: CCO";
        CallMolFromSmiles "CCO"; Print "Successfully parsed SMILES";
        CallMolToSmiles 0; Print "Molecular formula: CCO";
        CallGetNumAtoms 0; Print "Number of atoms: 3";
        CallAddHs 0; CallGetNumAtoms 1;
        Print "Number of atoms after adding hydrogens: 9";
        Print "Generating 3D coordinates..."; CallEmbedMolecule 1 ETKDG;
        CallMMFFOptimizeMolecule 1;
        Print "3D coordinates generated successfully";
        Print "Saving as PDB file: output.pdb"; CallMolToPDBFile 1 "output.pdb";
        Print "Conversion successful: output.pdb"].
Proof. cbv zeta. repeat split; vm_compute; reflexivity. Qed.

(** Benzene to PNG at 400 pixels through the loop, then exit. *)
Example benzene_png_400 :
  let run := interactive_conversion (Toy.toolkit Toy.fine) 5
               (Toy.world Toy.fine ∅
                  [Normal "5"; Normal "c1ccccc1"; Normal "400"; Normal ""; Normal "n"]) in
  run.1 = Normal true
  /\ files run.2 !! "output.png" = Some "PNG"
  /\ In (CallMolToImage 0 400) (trace run.2)
  /\ stdin run.2 = [].
Proof.
  cbv zeta. split; [vm_compute; reflexivity|]. split; [vm_compute; reflexivity|].
  split; [|vm_compute; reflexivity].
  apply list_elem_of_In. apply (list_elem_of_lookup_2 _ 35). vm_compute. reflexivity.
Qed.

(** Without input the loop never ends: every iteration meets the end of
    the input, prints the error and goes on. *)
Example end_of_input_loops :
  (interactive_conversion (Toy.toolkit Toy.fine) 4 (Toy.world Toy.fine ∅ [])).1
  = Normal false.
Proof. vm_compute. reflexivity. Qed.

(** * Further properties *)

(** ** What a run may add, read and raise *)

Section Frames.

Variable tk : Toolkit.
Variable P : event -> bool.

Lemma emits_only_silent {A} (c : M tk A) :
  (forall w, trace (c w).2 = trace w) -> emits_only P c.
Proof. intros H w. exists []. by rewrite H, app_nil_r. Qed.

Lemma emits_only_ret {A} (a : A) : emits_only P (mret a : M tk A).
Proof. by apply emits_only_silent. Qed.

Lemma emits_only_bind {A B} (c : M tk A) (k : A -> M tk B) :
  emits_only P c -> (forall a, emits_only P (k a)) -> emits_only P (c ≫= k).
Proof.
  intros Hc Hk w. rewrite run_bind.
  destruct (Hc w) as [evs [Ht Hp]].
  destruct (c w) as [[a|e] w']; cbn [fst snd] in *; [|by exists evs].
  destruct (Hk a w') as [evs' [Ht' Hp']].
  exists (evs ++ evs'). by rewrite Ht', Ht, app_assoc, forallb_app, Hp, Hp'.
Qed.

Lemma emits_only_try_except {A} (body : M tk A) handler :
  emits_only P body -> (forall msg, emits_only P (handler msg)) ->
  emits_only P (try_except tk body handler).
Proof.
  intros Hc Hk w. rewrite run_try_except.
  destruct (Hc w) as [evs [Ht Hp]].
  destruct (body w) as [[a|[|msg]] w']; cbn [fst snd] in *; try by exists evs.
  destruct (Hk msg w') as [evs' [Ht' Hp']].
  exists (evs ++ evs'). by rewrite Ht', Ht, app_assoc, forallb_app, Hp, Hp'.
Qed.

Lemma emits_only_log (e : event) : P e = true -> emits_only P (log tk e).
Proof. intros H w. exists [e]. cbn. by rewrite H. Qed.

Lemma emits_only_with_mol {A} h (op : Mol tk -> outcome A) :
  emits_only P (with_mol tk h op).
Proof.
  apply emits_only_silent. intros w. unfold with_mol. by destruct (heap w !! h).
Qed.

Lemma emits_only_on_mol {A} h (op : Mol tk -> outcome A * Mol tk) :
  emits_only P (on_mol tk h op).
Proof.
  apply emits_only_silent. intros w. unfold on_mol. by destruct (heap w !! h).
Qed.

Lemma emits_only_on_files op : emits_only P (on_files tk op).
Proof. by apply emits_only_silent. Qed.

Lemma emits_only_alloc m : emits_only P (alloc tk m).
Proof. by apply emits_only_silent. Qed.

Lemma emits_only_lift {A} (r : outcome A) : emits_only P (lift tk r).
Proof. by apply emits_only_silent. Qed.

Lemma emits_only_exists path : emits_only P (exists_and_nonempty tk path).
Proof. by apply emits_only_silent. Qed.

(** *** Input *)

Lemma keeps_stdin_step {A} (c : M tk A) :
  (forall w, stdin (c w).2 = stdin w) -> keeps_stdin c.
Proof. done. Qed.

Lemma keeps_stdin_ret {A} (a : A) : keeps_stdin (mret a : M tk A).
Proof. done. Qed.

Lemma keeps_stdin_bind {A B} (c : M tk A) (k : A -> M tk B) :
  keeps_stdin c -> (forall a, keeps_stdin (k a)) -> keeps_stdin (c ≫= k).
Proof.
  intros Hc Hk w. rewrite run_bind. specialize (Hc w).
  destruct (c w) as [[a|e] w']; cbn [fst snd] in *; [|done].
  by rewrite Hk.
Qed.

Lemma keeps_stdin_try_except {A} (body : M tk A) handler :
  keeps_stdin body -> (forall msg, keeps_stdin (handler msg)) ->
  keeps_stdin (try_except tk body handler).
Proof.
  intros Hc Hk w. rewrite run_try_except. specialize (Hc w).
  destruct (body w) as [[a|[|msg]] w']; cbn [fst snd] in *; try done.
  by rewrite Hk.
Qed.

Lemma keeps_stdin_log e : keeps_stdin (log tk e).
Proof. done. Qed.

Lemma keeps_stdin_with_mol {A} h (op : Mol tk -> outcome A) :
  keeps_stdin (with_mol tk h op).
Proof. intros w. unfold with_mol. by destruct (heap w !! h). Qed.

Lemma keeps_stdin_on_mol {A} h (op : Mol tk -> outcome A * Mol tk) :
  keeps_stdin (on_mol tk h op).
Proof. intros w. unfold on_mol. by destruct (heap w !! h). Qed.

Lemma keeps_stdin_on_files op : keeps_stdin (on_files tk op).
Proof. done. Qed.

Lemma keeps_stdin_alloc m : keeps_stdin (alloc tk m).
Proof. done. Qed.

Lemma keeps_stdin_lift {A} (r : outcome A) : keeps_stdin (lift tk r).
Proof. done. Qed.

Lemma keeps_stdin_exists path : keeps_stdin (exists_and_nonempty tk path).
Proof. done. Qed.

(** *** Interrupts *)

Lemma uninterrupted_ret {A} (a : A) : uninterrupted (mret a : M tk A).
Proof. done. Qed.

Lemma uninterrupted_bind {A B} (c : M tk A) (k : A -> M tk B) :
  uninterrupted c -> (forall a, uninterrupted (k a)) -> uninterrupted (c ≫= k).
Proof.
  intros Hc Hk w. rewrite run_bind. specialize (Hc w).
  destruct (c w) as [[a|e] w']; cbn [fst snd] in *; [apply Hk | done].
Qed.

Lemma uninterrupted_try_except {A} (body : M tk A) handler :
  (forall msg, uninterrupted (handler msg)) ->
  uninterrupted body -> uninterrupted (try_except tk body handler).
Proof.
  intros Hk Hc w. rewrite run_try_except. specialize (Hc w).
  destruct (body w) as [[a|[|msg]] w']; cbn [fst snd] in *; try done.
  apply Hk.
Qed.

Lemma uninterrupted_log e : uninterrupted (log tk e).
Proof. done. Qed.

Lemma uninterrupted_with_mol {A} h (op : Mol tk -> outcome A) :
  (forall m, is_interrupt (op m) = false) -> uninterrupted (with_mol tk h op).
Proof. intros H w. unfold with_mol. destruct (heap w !! h); [apply H | done]. Qed.

Lemma uninterrupted_on_mol {A} h (op : Mol tk -> outcome A * Mol tk) :
  (forall m, is_interrupt (op m).1 = false) -> uninterrupted (on_mol tk h op).
Proof. intros H w. unfold on_mol. destruct (heap w !! h); [apply H | done]. Qed.

Lemma uninterrupted_on_files op :
  (forall fs, is_interrupt (op fs).1 = false) -> uninterrupted (on_files tk op).
Proof. intros H w. apply H. Qed.

Lemma uninterrupted_alloc m : uninterrupted (alloc tk m).
Proof. done. Qed.

Lemma uninterrupted_lift {A} (r : outcome A) :
  is_interrupt r = false -> uninterrupted (lift tk r).
Proof. by intros H w. Qed.

Lemma uninterrupted_exists path : uninterrupted (exists_and_nonempty tk path).
Proof. done. Qed.

End Frames.

Ltac branches pred :=
  match goal with
  | |- pred _ _ (if ?b then _ else _) => destruct b
  | |- pred _ _ (match ?x with _ => _ end) => destruct x
  | |- pred _ _ _ (if ?b then _ else _) => destruct b
  | |- pred _ _ _ (match ?x with _ => _ end) => destruct x
  | |- pred _ _ _ _ (if ?b then _ else _) => destruct b
  | |- pred _ _ _ _ (match ?x with _ => _ end) => destruct x
  end.

Ltac accepted :=
  cbn; rewrite ?Z.eqb_refl, ?String.eqb_refl; reflexivity.

Ltac only_events :=
  repeat first
    [ apply emits_only_ret
    | apply emits_only_log; accepted
    | apply emits_only_with_mol
    | apply emits_only_on_mol
    | apply emits_only_on_files
    | apply emits_only_alloc
    | apply emits_only_lift
    | apply emits_only_exists
    | apply emits_only_bind; [|intros ?]
    | apply emits_only_try_except; [|intros ?]
    | branches (@emits_only) ].

Ltac no_input :=
  repeat first
    [ apply keeps_stdin_ret
    | apply keeps_stdin_log
    | apply keeps_stdin_with_mol
    | apply keeps_stdin_on_mol
    | apply keeps_stdin_on_files
    | apply keeps_stdin_alloc
    | apply keeps_stdin_lift
    | apply keeps_stdin_exists
    | apply keeps_stdin_bind; [|intros ?]
    | apply keeps_stdin_try_except; [|intros ?]
    | branches (@keeps_stdin) ].

Ltac calm H :=
  repeat first
    [ apply uninterrupted_ret
    | apply uninterrupted_log
    | apply uninterrupted_alloc
    | apply uninterrupted_exists
    | apply uninterrupted_with_mol; intros; first [ apply H | reflexivity ]
    | apply uninterrupted_on_mol; intros; apply H
    | apply uninterrupted_on_files; intros; apply H
    | apply uninterrupted_lift; apply H
    | apply uninterrupted_bind; [|intros ?]
    | apply uninterrupted_try_except; [intros ?|]
    | branches (@uninterrupted) ].

(** ** convert_smiles as a whole *)

Section Whole.

Variable tk : Toolkit.
Implicit Types (w : World tk).

Lemma three_outcomes smiles out fmt generate_3d size w :
  let r := (convert_smiles tk smiles out fmt generate_3d size w).1 in
  r = Normal true \/ r = Normal false \/ r = Raised KeyboardInterrupt.
Proof.
  cbv zeta. rewrite run_convert_smiles.
  destruct (tk_MolFromSmiles tk smiles) as [[m|]|[|msg]]; cbn [fst]; auto.
  destruct (convert_parsed tk _ out fmt generate_3d size _) as [[[]|[|msg]] w2];
    cbn [fst]; auto.
  rewrite run_check_output. destruct (nonempty_file (files w2) out); cbn [fst]; auto.
Qed.

(** X1: convert_smiles returns true, returns false, or lets a keyboard
    interrupt through; no exception of class Exception leaves it, whatever
    the toolkit does. *)
Theorem convert_smiles_outcomes smiles out fmt generate_3d size w :
  let r := (convert_smiles tk smiles out fmt generate_3d size w).1 in
  r = Normal true \/ r = Normal false \/ r = Raised KeyboardInterrupt.
Proof. apply three_outcomes. Qed.

(** X2: with a toolkit none of whose calls ends in a keyboard interrupt,
    convert_smiles always returns a truth value. *)
Theorem convert_smiles_returns smiles out fmt generate_3d size w :
  no_interrupts tk ->
  exists b, (convert_smiles tk smiles out fmt generate_3d size w).1 = Normal b.
Proof.
  intros H.
  assert (Hcalm : uninterrupted (convert_smiles tk smiles out fmt generate_3d size)).
  { unfold convert_smiles, conversion_failed, check_output, convert_parsed,
      report_parsed, write_output, save_molecule, generate_3d_coordinates,
      embed_molecule, minimize_energy, use_2d_coordinates,
      MolFromSmiles, MolToSmiles, GetNumAtoms, AddHs, Compute2DCoords,
      EmbedMolecule, MMFFOptimizeMolecule, MolToImage, save, MolToPDBFile,
      MolToMolFile, print.
    calm H. }
  specialize (Hcalm w).
  destruct (three_outcomes smiles out fmt generate_3d size w) as [Hr|[Hr|Hr]];
    cbv zeta in Hr; rewrite Hr in *; [by exists true | by exists false | discriminate].
Qed.

(** X3: every return of convert_smiles is announced on its last line:
    true by "Conversion successful: <file>", false by "Invalid SMILES
    string", "Output file creation failed" or "Conversion failed: <text of
    the exception>". *)
Theorem convert_smiles_announces smiles out fmt generate_3d size w :
  let run := convert_smiles tk smiles out fmt generate_3d size w in
  match run.1 with
  | Normal true =>
      last (trace run.2) = Some (Print ("Conversion successful: " +:+ out))
  | Normal false =>
      exists line,
        last (trace run.2) = Some (Print line)
        /\ (line = "Invalid SMILES string"
            \/ line = "Output file creation failed"
            \/ exists msg, line = "Conversion failed: " +:+ msg)
  | Raised _ => True
  end.
Proof.
  cbv zeta. rewrite run_convert_smiles.
  destruct (tk_MolFromSmiles tk smiles) as [[m|]|[|msg]]; cbn [fst snd emit trace].
  - destruct (convert_parsed tk _ out fmt generate_3d size _) as [[[]|[|msg]] w2];
      cbn [fst snd emit trace]; [|done|].
    + rewrite run_check_output.
      destruct (nonempty_file (files w2) out); cbn [fst snd emit trace].
      * apply last_snoc.
      * eexists. split; [apply last_snoc | auto].
    + eexists. split; [apply last_snoc | eauto].
  - eexists. split; [apply last_snoc | auto].
  - done.
  - eexists. split; [apply last_snoc | eauto].
Qed.

(** X16: convert_smiles reads nothing from standard input. *)
Theorem convert_smiles_reads_no_input smiles out fmt generate_3d size w :
  stdin (convert_smiles tk smiles out fmt generate_3d size w).2 = stdin w.
Proof.
  revert w. change (keeps_stdin (convert_smiles tk smiles out fmt generate_3d size)).
  unfold convert_smiles, conversion_failed, check_output, convert_parsed,
    report_parsed, write_output, save_molecule, generate_3d_coordinates,
    embed_molecule, minimize_energy, use_2d_coordinates,
    MolFromSmiles, MolToSmiles, GetNumAtoms, AddHs, Compute2DCoords,
    EmbedMolecule, MMFFOptimizeMolecule, MolToImage, save, MolToPDBFile,
    MolToMolFile, print.
  no_input.
Qed.

(** X5: a conversion to PNG adds only prints, the parse, the two
    accessors, the 2D layout, the image at the size asked and its save at
    the output path: no hydrogens, no embedding, no minimization, no PDB
    or MOL writer; and generate_3d makes no difference to it. *)
Theorem png_conversion_calls smiles out generate_3d size :
  emits_only (png_event out size) (convert_smiles tk smiles out "png" generate_3d size)
  /\ forall w,
       convert_smiles tk smiles out "png" generate_3d size w
       = convert_smiles tk smiles out "png" (negb generate_3d) size w.
Proof.
  split; [|reflexivity].
  unfold convert_smiles, conversion_failed, check_output, convert_parsed,
    report_parsed, write_output.
  change (String.eqb "png" "png") with true. cbv iota.
  unfold MolFromSmiles, MolToSmiles, GetNumAtoms, Compute2DCoords, MolToImage,
    save, print.
  only_events.
Qed.

(** X6: without generate_3d no conversion calls the embedding or the
    minimization. *)
Theorem flat_conversion_never_embeds smiles out fmt size :
  emits_only (fun e => negb (is_3d_call e))
    (convert_smiles tk smiles out fmt false size).
Proof.
  unfold convert_smiles, conversion_failed, check_output, convert_parsed,
    report_parsed, write_output, save_molecule.
  unfold MolFromSmiles, MolToSmiles, GetNumAtoms, AddHs, Compute2DCoords, MolToImage,
    save, MolToPDBFile, MolToMolFile, print.
  only_events.
Qed.

End Whole.

(** ** Writers *)

Section Writers.

Variable tk : Toolkit.
Variable allowed : event -> bool.

Lemma run_log {B} (e : event) (k : unit -> M tk B) w :
  (log tk e ≫= k) w = k tt (emit [e] w).
Proof. reflexivity. Qed.

Lemma once_of_quiet {A} (c : M tk A) :
  writes_nothing c -> writes_at_most_once allowed c.
Proof. intros H w. left. apply H. Qed.

Lemma once_bind_l {A B} (c : M tk A) (k : A -> M tk B) :
  writes_nothing c -> (forall a, writes_at_most_once allowed (k a)) ->
  writes_at_most_once allowed (c ≫= k).
Proof.
  intros Hc Hk w. rewrite run_bind.
  destruct (Hc w) as [Hf [evs [Ht Hq]]].
  destruct (c w) as [[a|e] w']; cbn [fst snd] in *; [|left; split; [done|by exists evs]].
  destruct (Hk a w') as [[Hf' [evs' [Ht' Hq']]]
                        | (evs1 & e & evs2 & Ht' & Hq1 & Hq2 & Ha & Hr)].
  - left. split; [congruence|]. exists (evs ++ evs').
    unfold quiet_events in *. by rewrite Ht', Ht, app_assoc, forallb_app, Hq, Hq'.
  - right. exists (evs ++ evs1), e, evs2.
    unfold quiet_events in *. rewrite Ht', Ht, forallb_app, Hq, Hq1.
    split; [by rewrite <- !app_assoc|]. repeat split; try done. by rewrite <- Hf.
Qed.

Lemma once_bind_r {A B} (c : M tk A) (k : A -> M tk B) :
  writes_at_most_once allowed c -> (forall a, writes_nothing (k a)) ->
  writes_at_most_once allowed (c ≫= k).
Proof.
  intros Hc Hk w. rewrite run_bind.
  destruct (Hc w) as [[Hf [evs [Ht Hq]]]
                     | (evs1 & e & evs2 & Ht & Hq1 & Hq2 & Ha & Hr)].
  - destruct (c w) as [[a|e] w']; cbn [fst snd] in *;
      [|left; split; [done|by exists evs]].
    destruct (Hk a w') as [Hf' [evs' [Ht' Hq']]].
    left. split; [congruence|]. exists (evs ++ evs').
    unfold quiet_events in *. by rewrite Ht', Ht, app_assoc, forallb_app, Hq, Hq'.
  - destruct (c w) as [[a|e'] w']; cbn [fst snd] in *;
      [|right; by exists evs1, e, evs2].
    destruct (Hk a w') as [Hf' [evs' [Ht' Hq']]].
    right. exists evs1, e, (evs2 ++ evs').
    unfold quiet_events in *. rewrite Ht', Ht, forallb_app, Hq2, Hq', Hf'.
    repeat split; try done. by rewrite <- !app_assoc.
Qed.

Lemma once_try_except {A} (body : M tk A) handler :
  writes_at_most_once allowed body -> (forall msg, writes_nothing (handler msg)) ->
  writes_at_most_once allowed (try_except tk body handler).
Proof.
  intros Hc Hk w. rewrite run_try_except.
  destruct (Hc w) as [[Hf [evs [Ht Hq]]]
                     | (evs1 & e & evs2 & Ht & Hq1 & Hq2 & Ha & Hr)].
  - destruct (body w) as [[a|[|msg]] w']; cbn [fst snd] in *;
      try (left; split; [done|by exists evs]).
    destruct (Hk msg w') as [Hf' [evs' [Ht' Hq']]].
    left. split; [congruence|]. exists (evs ++ evs').
    unfold quiet_events in *. by rewrite Ht', Ht, app_assoc, forallb_app, Hq, Hq'.
  - destruct (body w) as [[a|[|msg]] w']; cbn [fst snd] in *;
      try (right; by exists evs1, e, evs2).
    destruct (Hk msg w') as [Hf' [evs' [Ht' Hq']]].
    right. exists evs1, e, (evs2 ++ evs').
    unfold quiet_events in *. rewrite Ht', Ht, forallb_app, Hq2, Hq', Hf'.
    repeat split; try done. by rewrite <- !app_assoc.
Qed.

Lemma once_save img path :
  allowed (CallSave path) = true -> writes_at_most_once allowed (save tk img path).
Proof.
  intros Ha w. right. exists [], (CallSave path), [].
  unfold save. rewrite run_log. cbn.
  repeat split; try done. right. by exists img.
Qed.

Lemma once_MolToPDBFile h path :
  allowed (CallMolToPDBFile h path) = true ->
  writes_at_most_once allowed (MolToPDBFile tk h path).
Proof.
  intros Ha w. right. exists [], (CallMolToPDBFile h path), [].
  unfold MolToPDBFile. rewrite run_log, run_bind. unfold with_mol. cbn [heap emit].
  destruct (heap w !! h) as [m|]; cbn; repeat split; try done; [|by left].
  right. by exists m.
Qed.

Lemma once_MolToMolFile h path :
  allowed (CallMolToMolFile h path) = true ->
  writes_at_most_once allowed (MolToMolFile tk h path).
Proof.
  intros Ha w. right. exists [], (CallMolToMolFile h path), [].
  unfold MolToMolFile. rewrite run_log, run_bind. unfold with_mol. cbn [heap emit].
  destruct (heap w !! h) as [m|]; cbn; repeat split; try done; [|by left].
  right. by exists m.
Qed.

End Writers.

Section OneWriter.

Variable tk : Toolkit.

(** X4: a call of convert_smiles invokes at most one writer: the image
    save for png, the PDB writer for pdb, the MOL writer for mol, none for
    another format, and always on the output path; before and after that
    call no writer runs, and the files are as they were or as that writer
    left them. *)
Theorem convert_smiles_writes_once smiles out fmt generate_3d size :
  writes_at_most_once (writer_for fmt out)
    (convert_smiles tk smiles out fmt generate_3d size).
Proof.
  unfold convert_smiles.
  apply once_bind_l; [quiet | intros _].
  apply once_try_except; [| intros msg; unfold conversion_failed; quiet].
  apply once_bind_l; [quiet | intros _].
  apply once_bind_l; [unfold MolFromSmiles; quiet | intros [mol|]];
    [| apply once_of_quiet; quiet].
  apply once_bind_r; [| intros _; unfold check_output; quiet].
  unfold convert_parsed.
  apply once_bind_l; [unfold report_parsed, MolToSmiles, GetNumAtoms; quiet | intros _].
  unfold write_output. destruct (String.eqb fmt "png") eqn:Hpng.
  - apply once_bind_l; [quiet | intros _].
    apply once_bind_l; [unfold Compute2DCoords; quiet | intros _].
    apply once_bind_l; [quiet | intros _].
    apply once_bind_l; [unfold MolToImage; quiet | intros img].
    apply once_save. cbn. by rewrite Hpng, String.eqb_refl.
  - apply once_bind_l; [unfold AddHs; quiet | intros mol_with_h].
    apply once_bind_l; [unfold GetNumAtoms; quiet | intros n].
    apply once_bind_l; [quiet | intros _].
    apply once_bind_l.
    { destruct generate_3d; [apply writes_nothing_generate_3d|].
      unfold Compute2DCoords; quiet. }
    intros _. unfold save_molecule.
    destruct (String.eqb fmt "pdb") eqn:Hpdb.
    + apply once_bind_l; [quiet | intros _].
      apply once_MolToPDBFile. cbn. by rewrite Hpdb, String.eqb_refl.
    + destruct (String.eqb fmt "mol") eqn:Hmol; [| apply once_of_quiet; quiet].
      apply once_bind_l; [quiet | intros _].
      apply once_MolToMolFile. cbn. by rewrite Hmol, String.eqb_refl.
Qed.

End OneWriter.

(** ** What reaches the disk *)

Section Written.

Variable tk : Toolkit.
Variables (smiles out : string) (size : Z) (w : World tk).
Variables (m : Mol tk) (formula : string).
Hypothesis Hparse : tk_MolFromSmiles tk smiles = Normal (Some m).
Hypothesis Hformula : tk_MolToSmiles tk m = Normal formula.

Lemma finish_with_writer (op : FileSystem -> outcome unit * FileSystem) w2 :
  let run :=
    try_except tk (on_files tk op;; check_output tk out) (conversion_failed tk) w2 in
  run.1 = reported (op (files w2)).1 (op (files w2)).2 out
  /\ files run.2 = (op (files w2)).2.
Proof.
  cbv zeta. rewrite run_try_except, run_bind. unfold on_files.
  destruct (op (files w2)) as [[[]|[|msg]] fs']; cbn [fst snd reported]; try done.
  rewrite run_check_output. cbn [files].
  by destruct (nonempty_file fs' out).
Qed.

(** X7: for pdb and mol, once the hydrogens are added and the coordinates
    step has returned, the molecule handed to the writer is the one with
    hydrogens in the state that step left it in; the call returns true
    exactly when the writer returned and left a non-empty file at the
    output path; when the writer raises an exception the call returns
    false and what the writer left on disk stays. *)
Theorem molecule_file_written fmt (generate_3d : bool) mh write w2 m2 :
  tk_AddHs tk m = Normal mh ->
  format_writer tk fmt = Some write ->
  (if generate_3d then generate_3d_coordinates tk (S (length (heap w)))
   else Compute2DCoords tk (S (length (heap w))))
    (with_hydrogens smiles fmt formula m mh w) = (Normal tt, w2) ->
  heap w2 !! S (length (heap w)) = Some m2 ->
  let run := convert_smiles tk smiles out fmt generate_3d size w in
  let written := write m2 out (files w) in
  run.1 = reported written.1 written.2 out /\ files run.2 = written.2.
Proof.
  intros Haddhs Hwrite Hcoords Hlive.
  assert (Hfiles : files w2 = files w).
  { assert (Hq : writes_nothing
                   (if generate_3d
                    then generate_3d_coordinates tk (S (length (heap w)))
                    else Compute2DCoords tk (S (length (heap w))))).
    { destruct generate_3d; [apply writes_nothing_generate_3d|].
      unfold Compute2DCoords; quiet. }
    destruct (Hq (with_hydrogens smiles fmt formula m mh w)) as [Hf _].
    by rewrite Hcoords in Hf. }
  unfold format_writer in Hwrite. cbv zeta.
  destruct (String.eqb fmt "pdb") eqn:Hpdb.
  - apply String.eqb_eq in Hpdb as ->. injection Hwrite as <-.
    rewrite (convert_smiles_with_hydrogens tk smiles out "pdb" generate_3d size w
               m mh formula) by done.
    cbv zeta. rewrite (try_except_step tk _ _ _ _ tt w2 Hcoords).
    unfold save_molecule. change (String.eqb "pdb" "pdb") with true. cbv iota.
    rewrite (try_except_ext tk _
               (on_files tk (tk_MolToPDBFile tk m2 out);; check_output tk out) _ w2
               (emit [Print ("Saving as PDB file: " +:+ out);
                      CallMolToPDBFile (S (length (heap w))) out] w2)).
    + pose proof (finish_with_writer (tk_MolToPDBFile tk m2 out)
                    (emit [Print ("Saving as PDB file: " +:+ out);
                           CallMolToPDBFile (S (length (heap w))) out] w2)) as H.
      cbv zeta in H. cbn [files emit] in H. by rewrite Hfiles in H.
    + rewrite ?run_bind_assoc, run_print. unfold MolToPDBFile.
      rewrite ?run_bind_assoc, run_log, ?run_bind_assoc.
      rewrite run_bind, (run_with_mol tk _ _ _ m2) by live.
      by rewrite emit_emit.
  - destruct (String.eqb fmt "mol") eqn:Hmol; [|discriminate].
    apply String.eqb_eq in Hmol as ->. injection Hwrite as <-.
    rewrite (convert_smiles_with_hydrogens tk smiles out "mol" generate_3d size w
               m mh formula) by done.
    cbv zeta. rewrite (try_except_step tk _ _ _ _ tt w2 Hcoords).
    unfold save_molecule. change (String.eqb "mol" "pdb") with false.
    change (String.eqb "mol" "mol") with true. cbv iota.
    rewrite (try_except_ext tk _
               (on_files tk (tk_MolToMolFile tk m2 out);; check_output tk out) _ w2
               (emit [Print ("Saving as MOL file: " +:+ out);
                      CallMolToMolFile (S (length (heap w))) out] w2)).
    + pose proof (finish_with_writer (tk_MolToMolFile tk m2 out)
                    (emit [Print ("Saving as MOL file: " +:+ out);
                           CallMolToMolFile (S (length (heap w))) out] w2)) as H.
      cbv zeta in H. cbn [files emit] in H. by rewrite Hfiles in H.
    + rewrite ?run_bind_assoc, run_print. unfold MolToMolFile.
      rewrite ?run_bind_assoc, run_log, ?run_bind_assoc.
      rewrite run_bind, (run_with_mol tk _ _ _ m2) by live.
      by rewrite emit_emit.
Qed.

End Written.

Section WrittenImage.

Variable tk : Toolkit.
Variables (smiles out : string) (size : Z) (w : World tk).
Variables (m m' : Mol tk) (formula : string) (img : Image tk).
Hypothesis Hparse : tk_MolFromSmiles tk smiles = Normal (Some m).
Hypothesis Hformula : tk_MolToSmiles tk m = Normal formula.
Hypothesis Hlayout : tk_Compute2DCoords tk m = (Normal tt, m').
Hypothesis Himage : tk_MolToImage tk m' size = Normal img.

(** X8: for png, with a molecule that parses, a 2D layout and a rendering
    that return, the image saved is the rendering, at the size asked, of
    the parsed molecule after its layout; no hydrogens are added; the call
    returns true exactly when the save returned and left a non-empty file
    at the output path, and the events are the ones listed. *)
Theorem image_file_written generate_3d :
  let run := convert_smiles tk smiles out "png" generate_3d size w in
  let written := tk_save tk img out (files w) in
  let mol := length (heap w) in
  run.1 = reported written.1 written.2 out
  /\ files run.2 = written.2
  /\ exists closing,
       trace run.2 =
         trace w ++
         [Print ("Converting SMILES to " +:+ upper "png" +:+ ": " +:+ smiles);
          Print ("Parsing SMILES: " +:+ smiles);
          CallMolFromSmiles smiles;
          Print "Successfully parsed SMILES";
          CallMolToSmiles mol;
          Print ("Molecular formula: " +:+ formula);
          CallGetNumAtoms mol;
          Print ("Number of atoms: " +:+ str_nat (tk_GetNumAtoms tk m));
          Print "Generating 2D molecular image...";
          CallCompute2DCoords mol;
          Print ("Saving as PNG image: " +:+ out +:+ " (" +:+ str_Z size
                 +:+ "x" +:+ str_Z size +:+ "px)");
          CallMolToImage mol size;
          CallSave out] ++ closing.
Proof.
  cbv zeta. unfold convert_smiles. rewrite run_print.
  set (handler := conversion_failed tk).
  rewrite (try_except_ext tk _
             (on_files tk (tk_save tk img out);; check_output tk out) handler _
             (set_mol (length (heap w)) m'
                (push m
                   (emit
                      [Print ("Converting SMILES to " +:+ upper "png" +:+ ": " +:+ smiles);
                       Print ("Parsing SMILES: " +:+ smiles);
                       CallMolFromSmiles smiles;
                       Print "Successfully parsed SMILES";
                       CallMolToSmiles (length (heap w));
                       Print ("Molecular formula: " +:+ formula);
                       CallGetNumAtoms (length (heap w));
                       Print ("Number of atoms: " +:+ str_nat (tk_GetNumAtoms tk m));
                       Print "Generating 2D molecular image...";
                       CallCompute2DCoords (length (heap w));
                       Print ("Saving as PNG image: " +:+ out +:+ " (" +:+ str_Z size
                              +:+ "x" +:+ str_Z size +:+ "px)");
                       CallMolToImage (length (heap w)) size;
                       CallSave out] w)))).
  - rewrite run_try_except, run_bind. unfold on_files.
    cbn [files heap stdin trace set_mol push emit].
    destruct (tk_save tk img out (files w)) as [[[]|[|msg]] fs'];
      cbn [fst snd reported].
    + rewrite run_check_output. cbn [files].
      destruct (nonempty_file fs' out); cbn [fst snd emit files trace];
        (split; [done|]; split; [done|]);
        rewrite <- app_assoc; eexists; reflexivity.
    + split; [done|]. split; [done|]. exists []. by rewrite app_nil_r.
    + unfold handler, conversion_failed. rewrite run_print.
      unfold mret, M_ret, ret. cbn [fst snd emit files trace].
      split; [done|]. split; [done|].
      rewrite <- app_assoc. eexists; reflexivity.
  - rewrite run_print, run_bind, run_MolFromSmiles, Hparse.
    unfold convert_parsed, report_parsed, write_output.
    change (String.eqb "png" "png") with true. cbv iota.
    cbn [heap emit push].
    rewrite ?run_bind_assoc, run_print.
    rewrite ?run_bind_assoc, run_bind, (run_MolToSmiles tk _ _ m), Hformula by live.
    rewrite ?run_bind_assoc, run_print.
    rewrite ?run_bind_assoc, run_bind, (run_GetNumAtoms tk _ _ m) by live.
    rewrite ?run_bind_assoc, run_print.
    rewrite ?run_bind_assoc, run_print.
    rewrite ?run_bind_assoc, run_bind, (run_Compute2DCoords tk _ _ m), Hlayout by live.
    cbn [fst snd].
    rewrite ?run_bind_assoc, run_print.
    unfold MolToImage.
    rewrite ?run_bind_assoc, run_log, ?run_bind_assoc.
    rewrite run_bind, (run_with_mol tk _ _ _ m'), Himage
      by (cbn [heap emit set_mol push]; apply list_lookup_insert_eq;
          rewrite length_app; cbn [length]; lia).
    unfold save. rewrite ?run_bind_assoc, run_log.
    f_equal. same_world.
Qed.

End WrittenImage.

(** ** Stripping and lower case *)

Section MoreStrings.

Lemma rstrip_rstrip s : rstrip (rstrip s) = rstrip s.
Proof.
  induction s as [|c s IH]; [done|]. cbn [rstrip].
  destruct (rstrip s) as [|d r] eqn:E.
  - destruct (isspace c) eqn:Ec; [done|]. cbn [rstrip]. by rewrite Ec.
  - change (rstrip (String c (String d r)))
      with (match rstrip (String d r) with
            | EmptyString => if isspace c then EmptyString else String c EmptyString
            | r' => String c r'
            end).
    by rewrite IH.
Qed.

Lemma lstrip_head s :
  lstrip s = "" \/ exists c r, lstrip s = String c r /\ isspace c = false.
Proof.
  induction s as [|c s IH]; [by left|]. cbn [lstrip].
  destruct (isspace c) eqn:Ec; [done|]. right. by exists c, s.
Qed.

Lemma rstrip_head c r :
  isspace c = false -> exists r', rstrip (String c r) = String c r'.
Proof.
  intros Hc. cbn [rstrip]. destruct (rstrip r); [rewrite Hc|]; by eexists.
Qed.

Lemma strip_strip s : strip (strip s) = strip s.
Proof.
  unfold strip. destruct (lstrip_head s) as [E|(c & r & E & Hc)]; rewrite E; [done|].
  destruct (rstrip_head c r Hc) as [r' E']. rewrite E'. cbn [lstrip]. rewrite Hc.
  rewrite <- E'. apply rstrip_rstrip.
Qed.

Lemma lower_cons c s : lower (String c s) = String (lower_char c) (lower s).
Proof. reflexivity. Qed.

Lemma lower_char_y c : lower_char c = "y"%char -> c = "y"%char \/ c = "Y"%char.
Proof.
  destruct c as [[] [] [] [] [] [] [] []]; vm_compute; intros H;
    first [discriminate H | left; reflexivity | right; reflexivity].
Qed.

Lemma lower_char_e c : lower_char c = "e"%char -> c = "e"%char \/ c = "E"%char.
Proof.
  destruct c as [[] [] [] [] [] [] [] []]; vm_compute; intros H;
    first [discriminate H | left; reflexivity | right; reflexivity].
Qed.

Lemma lower_char_s c : lower_char c = "s"%char -> c = "s"%char \/ c = "S"%char.
Proof.
  destruct c as [[] [] [] [] [] [] [] []]; vm_compute; intros H;
    first [discriminate H | left; reflexivity | right; reflexivity].
Qed.

Lemma lower_is_y s : lower s = "y" -> s = "y" \/ s = "Y".
Proof.
  destruct s as [|c [|d s]]; [discriminate| |discriminate].
  rewrite lower_cons. intros [= H]. destruct (lower_char_y c H) as [-> | ->]; auto.
Qed.

Lemma lower_is_yes s :
  lower s = "yes" ->
  In s ["yes"; "yeS"; "yEs"; "yES"; "Yes"; "YeS"; "YEs"; "YES"].
Proof.
  destruct s as [|c1 [|c2 [|c3 [|c4 s]]]]; try discriminate.
  rewrite !lower_cons. intros [= H1 H2 H3].
  destruct (lower_char_y c1 H1) as [-> | ->];
    destruct (lower_char_e c2 H2) as [-> | ->];
    destruct (lower_char_s c3 H3) as [-> | ->]; cbn; auto 10.
Qed.

(** X13: the answers that the test of the last prompt accepts are exactly
    the ones that, once stripped, read y or yes in any mix of upper and
    lower case. *)
Theorem affirmative_answers answer :
  affirmative answer = true <->
  In (strip answer)
    ["y"; "Y"; "yes"; "yeS"; "yEs"; "yES"; "Yes"; "YeS"; "YEs"; "YES"].
Proof.
  unfold affirmative, in_list. cbn [existsb].
  rewrite !orb_true_iff, !String.eqb_eq. split.
  - intros [H|[H|H]]; [| |discriminate].
    + destruct (lower_is_y _ H) as [-> | ->]; cbn; auto.
    + apply lower_is_yes in H. right. right. exact H.
  - cbn. intros H.
    repeat (destruct H as [<- | H]; [vm_compute; auto|]). destruct H.
Qed.

End MoreStrings.

(** ** The loop, iteration by iteration *)

Section Loop.

Variable tk : Toolkit.
Implicit Types (w : World tk).

Lemma run_menu w : menu tk w = (Normal tt, (menu tk w).2).
Proof. reflexivity. Qed.

Lemma stdin_menu w : stdin (menu tk w).2 = stdin w.
Proof. reflexivity. Qed.

Lemma run_iteration w :
  iteration tk w =
    try_except_interrupt tk (try_body tk)
      (print tk interrupted;; mret Break)
      (fun e =>
         print tk (nl +:+ Glyph.cross +:+ " An error occurred: " +:+ e);;
         mret Continue)
      (menu tk w).2.
Proof. unfold iteration. by rewrite run_bind, run_menu. Qed.

Lemma run_while_true n w :
  while_true tk (S n) (iteration tk) w =
    match iteration tk w with
    | (Normal Break, w') => (Normal true, w')
    | (Normal Continue, w') => while_true tk n (iteration tk) w'
    | (Raised e, w') => (Raised e, w')
    end.
Proof.
  cbn [while_true]. rewrite run_bind.
  by destruct (iteration tk w) as [[[]|e] w'].
Qed.

Lemma run_try_body w :
  try_body tk w =
    (r ← collect_request tk;
     match r with
     | inl c => mret c
     | inr req => convert_request tk req;; continue_prompt tk
     end) w.
Proof.
  unfold try_body. rewrite run_bind, before_continue_prompt_split, !run_bind.
  destruct (collect_request tk w) as [[[c|req]|e] w1]; try done.
  rewrite !run_bind. by destruct (convert_request tk req w1) as [[[]|e] w2].
Qed.

(** An iteration that ends before the request is complete. *)
Lemma iteration_early w c w1 :
  collect_request tk (menu tk w).2 = (Normal (inl c), w1) ->
  iteration tk w = (Normal c, w1).
Proof.
  intros H. rewrite run_iteration. unfold try_except_interrupt.
  by rewrite run_try_body, run_bind, H.
Qed.

(** X9: when the stripped answer to the menu is 6, the iteration prints
    the goodbye line and the loop ends; no other line of input is read and
    no toolkit call is made. *)
Theorem exit_choice_ends_loop n w line rest :
  stdin w = Normal line :: rest ->
  strip line = "6" ->
  let w' := emit [Print goodbye] (read_line (emit [Prompt choice_prompt] (menu tk w).2)) in
  while_true tk (S n) (iteration tk) w = (Normal true, w')
  /\ stdin w' = rest
  /\ heap w' = heap w /\ files w' = files w.
Proof.
  intros Hin Hsix. cbv zeta. split;
    [| cbn [stdin heap files emit read_line]; by rewrite stdin_menu, Hin].
  rewrite run_while_true.
  rewrite (iteration_early w Break
             (emit [Print goodbye]
                (read_line (emit [Prompt choice_prompt] (menu tk w).2)))); [done|].
  unfold collect_request.
  rewrite (run_input tk _ _ _ line rest) by (by rewrite stdin_menu).
  cbv zeta. by rewrite Hsix.
Qed.

(** X10: when the stripped answer to the menu is none of 1 to 6, the
    iteration prints "Invalid choice. Please select 1-6." and the loop
    starts the next iteration, having read that one line only. *)
Theorem invalid_choice_asks_again n w line rest :
  stdin w = Normal line :: rest ->
  in_list (strip line) ["1"; "2"; "3"; "4"; "5"; "6"] = false ->
  let w' :=
    emit [Print (Glyph.cross +:+ " Invalid choice. Please select 1-6.")]
      (read_line (emit [Prompt choice_prompt] (menu tk w).2)) in
  while_true tk (S n) (iteration tk) w = while_true tk n (iteration tk) w'
  /\ stdin w' = rest
  /\ heap w' = heap w /\ files w' = files w.
Proof.
  intros Hin Hnot. cbv zeta. split;
    [| cbn [stdin heap files emit read_line]; by rewrite stdin_menu, Hin].
  rewrite run_while_true.
  rewrite (iteration_early w Continue
             (emit [Print (Glyph.cross +:+ " Invalid choice. Please select 1-6.")]
                (read_line (emit [Prompt choice_prompt] (menu tk w).2)))); [done|].
  unfold collect_request.
  rewrite (run_input tk _ _ _ line rest) by (by rewrite stdin_menu).
  cbv zeta. unfold in_list in *. cbn [existsb] in *.
  repeat (apply orb_false_elim in Hnot as [? Hnot]).
  by repeat match goal with H : String.eqb _ _ = false |- _ => rewrite H; clear H end.
Qed.

(** X11: when the menu answer is one of 1 to 5 and the SMILES answer is
    empty once stripped, the iteration prints "Please enter a valid SMILES
    string" and the loop starts the next iteration: two lines are read,
    nothing is converted. *)
Theorem empty_smiles_asks_again n w choice_line smiles_line rest :
  stdin w = Normal choice_line :: Normal smiles_line :: rest ->
  in_list (strip choice_line) ["1"; "2"; "3"; "4"; "5"] = true ->
  strip smiles_line = "" ->
  let w' :=
    emit [Print (Glyph.cross +:+ " Please enter a valid SMILES string")]
      (read_line
         (emit [Prompt smiles_prompt]
            (emit [Print (nl +:+ times "=" 40)]
               (read_line (emit [Prompt choice_prompt] (menu tk w).2))))) in
  while_true tk (S n) (iteration tk) w = while_true tk n (iteration tk) w'
  /\ stdin w' = rest
  /\ heap w' = heap w /\ files w' = files w.
Proof.
  intros Hin Hchoice Hempty. cbv zeta.
  split; [| cbn [stdin heap files emit read_line]; by rewrite stdin_menu, Hin].
  rewrite run_while_true.
  rewrite (iteration_early w Continue
             (emit [Print (Glyph.cross +:+ " Please enter a valid SMILES string")]
                (read_line
                   (emit [Prompt smiles_prompt]
                      (emit [Print (nl +:+ times "=" 40)]
                         (read_line (emit [Prompt choice_prompt] (menu tk w).2)))))));
    [done|].
  unfold collect_request.
  rewrite (run_input tk _ _ _ choice_line (Normal smiles_line :: rest))
    by (by rewrite stdin_menu).
  cbv zeta. rewrite Hchoice. cbn [negb].
  assert (Hsix : String.eqb (strip choice_line) "6" = false).
  { apply String.eqb_neq. intros E. rewrite E in Hchoice. discriminate. }
  rewrite Hsix, run_print.
  rewrite (run_input tk _ _ _ smiles_line rest)
    by (cbn [stdin emit read_line]; by rewrite stdin_menu, Hin).
  cbv zeta. by rewrite Hempty.
Qed.

(** *** The request *)

Lemma ask_image_size_positive w n w' :
  ask_image_size tk w = (Normal n, w') -> 0 < n.
Proof.
  unfold ask_image_size.
  rewrite run_print, run_print, run_print, run_bind.
  destruct (input tk _ _) as [[line|e] w1]; [|discriminate].
  cbv zeta. destruct (String.eqb (strip line) ""); [by intros [= <- _]|].
  destruct (int (strip line)) as [k|]; [|by intros [= <- _]].
  destruct (k <=? 0) eqn:Hk; [by intros [= <- _]|].
  intros [= <- _]. by apply Z.leb_gt.
Qed.

Lemma settings_result choice w fmt ext g3 n w' :
  settings tk choice w = (Normal (fmt, ext, g3, n), w') ->
  ext = "." +:+ fmt /\ in_list fmt ["pdb"; "mol"; "png"] = true
  /\ 0 < n /\ (fmt = "png" -> g3 = false).
Proof.
  unfold settings. destruct (String.eqb choice "5").
  - rewrite run_bind.
    destruct (ask_image_size tk w) as [[k|e] w1] eqn:Hsize; [|discriminate].
    intros [= <- <- <- <- _]. apply ask_image_size_positive in Hsize. done.
  - destruct (in_list choice ["1"; "2"]); intros [= <- <- <- <- _];
      repeat split; done.
Qed.

Lemma ask_output_name_extension ext w name w' :
  ask_output_name tk ext w = (Normal name, w') -> exists stem, name = stem +:+ ext.
Proof.
  unfold ask_output_name. rewrite run_bind.
  destruct (input tk _ _) as [[line|e] w1]; [|discriminate].
  cbv zeta. destruct (String.eqb (strip line) ""); [intros [= <- _]; by eexists|].
  destruct (endswith (strip line) ext) eqn:Hend; cbn [negb]; intros [= <- _].
  - by apply endswith_iff.
  - by eexists.
Qed.

(** X12: the body of an iteration is the collection of a request followed
    by convert_smiles on it, and every request the loop collects is well
    formed: the SMILES string is stripped and not empty, the format is pdb,
    mol or png, the file name ends with a dot and the format, the image
    size is above zero, and generate_3d is false for png. *)
Theorem requests_are_well_formed :
  (forall w,
     before_continue_prompt tk w =
       (r ← collect_request tk;
        match r with
        | inl c => mret (Some c)
        | inr req => convert_request tk req;; mret None
        end) w)
  /\ (forall w req w',
        collect_request tk w = (Normal (inr req), w') -> well_formed req).
Proof.
  split; [apply before_continue_prompt_split|].
  intros w [[[[smiles name] fmt] g3] n] w'. unfold collect_request.
  rewrite run_bind.
  destruct (input tk _ w) as [[line|e] w1]; [|discriminate].
  cbv zeta. destruct (String.eqb (strip line) "6"); [discriminate|].
  destruct (negb (in_list (strip line) ["1"; "2"; "3"; "4"; "5"])); [discriminate|].
  rewrite run_print, run_bind.
  destruct (input tk _ _) as [[line'|e] w2]; [|discriminate].
  cbv zeta. destruct (String.eqb (strip line') "") eqn:Hempty; [discriminate|].
  rewrite run_bind.
  destruct (settings tk (strip line) w2) as [[[[[fmt' ext] g3'] n']|e] w3] eqn:Hset;
    [|discriminate].
  rewrite run_bind.
  destruct (ask_output_name tk ext w3) as [[name'|e] w4] eqn:Hname; [|discriminate].
  intros [= <- <- <- <- <- _].
  apply settings_result in Hset as (-> & Hfmt & Hn & Hpng).
  apply ask_output_name_extension in Hname as [stem ->].
  apply String.eqb_neq in Hempty.
  unfold well_formed. repeat split; try done.
  - apply strip_strip.
  - by exists stem.
Qed.

(** *** The end of the input *)



End Loop.

(** ** Closed runs of the further properties *)

Lemma fine_toolkit_is_calm : no_interrupts (Toy.toolkit Toy.fine).
Proof.
  split; intros; try reflexivity.
  - cbn. unfold Toy.parse. by repeat destruct (String.eqb _ _).
  - by destruct method.
Defined.

Lemma convert_smiles_returns_witness :
  no_interrupts (Toy.toolkit Toy.fine)
  /\ exists b,
       (convert_smiles (Toy.toolkit Toy.fine) "CCO" "out.mol" "mol" true 200
          (Toy.world Toy.fine ∅ [])).1 = Normal b.
Proof.
  split; [exact fine_toolkit_is_calm|].
  exact (convert_smiles_returns (Toy.toolkit Toy.fine) "CCO" "out.mol" "mol" true 200
           (Toy.world Toy.fine ∅ []) fine_toolkit_is_calm).
Defined.

Lemma molecule_file_written_witness :
  let tk := Toy.toolkit Toy.fine in
  let w := Toy.world Toy.fine ∅ [] in
  let w1 := with_hydrogens (tk:=tk) "CCO" "pdb" "CCO" Toy.ethanol Toy.ethanol_h w in
  let w2 := (Compute2DCoords tk 1 w1).2 in
  let m2 := Toy.with_dims 2 Toy.ethanol_h in
  tk_MolFromSmiles tk "CCO" = Normal (Some Toy.ethanol)
  /\ tk_MolToSmiles tk Toy.ethanol = Normal "CCO"
  /\ tk_AddHs tk Toy.ethanol = Normal Toy.ethanol_h
  /\ format_writer tk "pdb" = Some (tk_MolToPDBFile tk)
  /\ Compute2DCoords tk 1 w1 = (Normal tt, w2)
  /\ heap w2 !! 1%nat = Some m2
  /\ (let run := convert_smiles tk "CCO" "out.pdb" "pdb" false 200 w in
      let written := tk_MolToPDBFile tk m2 "out.pdb" (files w) in
      run.1 = reported written.1 written.2 "out.pdb" /\ files run.2 = written.2)
  /\ reported (Normal tt) (Toy.write "PDB" "out.pdb" ∅).2 "out.pdb" = Normal true.
Proof.
  cbv zeta.
  assert (Hcoords :
    Compute2DCoords (Toy.toolkit Toy.fine) 1
      (with_hydrogens (tk:=Toy.toolkit Toy.fine) "CCO" "pdb" "CCO" Toy.ethanol
         Toy.ethanol_h (Toy.world Toy.fine ∅ []))
    = (Normal tt,
       (Compute2DCoords (Toy.toolkit Toy.fine) 1
          (with_hydrogens (tk:=Toy.toolkit Toy.fine) "CCO" "pdb" "CCO" Toy.ethanol
             Toy.ethanol_h (Toy.world Toy.fine ∅ []))).2))
    by (vm_compute; reflexivity).
  assert (Hlive :
    heap (Compute2DCoords (Toy.toolkit Toy.fine) 1
            (with_hydrogens (tk:=Toy.toolkit Toy.fine) "CCO" "pdb" "CCO" Toy.ethanol
               Toy.ethanol_h (Toy.world Toy.fine ∅ []))).2 !! 1%nat
    = Some (Toy.with_dims 2 Toy.ethanol_h))
    by (vm_compute; reflexivity).
  do 4 (split; [reflexivity|]). split; [exact Hcoords|]. split; [exact Hlive|].
  split; [|vm_compute; reflexivity].
  exact (molecule_file_written (Toy.toolkit Toy.fine) "CCO" "out.pdb" 200
           (Toy.world Toy.fine ∅ []) Toy.ethanol "CCO" eq_refl eq_refl
           "pdb" false Toy.ethanol_h (tk_MolToPDBFile (Toy.toolkit Toy.fine))
           _ (Toy.with_dims 2 Toy.ethanol_h) eq_refl eq_refl Hcoords Hlive).
Defined.

Lemma image_file_written_witness :
  let tk := Toy.toolkit Toy.fine in
  let w := Toy.world Toy.fine ∅ [] in
  let benzene := Toy.mkMol "c1ccccc1" 6 6 0 in
  tk_MolFromSmiles tk "c1ccccc1" = Normal (Some benzene)
  /\ tk_MolToSmiles tk benzene = Normal "c1ccccc1"
  /\ tk_Compute2DCoords tk benzene = (Normal tt, Toy.with_dims 2 benzene)
  /\ tk_MolToImage tk (Toy.with_dims 2 benzene) 400 = Normal 400
  /\ (let run := convert_smiles tk "c1ccccc1" "out.png" "png" false 400 w in
      let written := tk_save tk 400 "out.png" (files w) in
      run.1 = reported written.1 written.2 "out.png" /\ files run.2 = written.2).
Proof.
  cbv zeta. do 4 (split; [reflexivity|]).
  pose proof (image_file_written (Toy.toolkit Toy.fine) "c1ccccc1" "out.png" 400
                (Toy.world Toy.fine ∅ []) (Toy.mkMol "c1ccccc1" 6 6 0)
                (Toy.with_dims 2 (Toy.mkMol "c1ccccc1" 6 6 0)) "c1ccccc1" 400
                eq_refl eq_refl eq_refl eq_refl false) as (H1 & H2 & _).
  split; [exact H1 | exact H2].
Defined.

Lemma exit_choice_ends_loop_witness :
  let tk := Toy.toolkit Toy.fine in
  let w := Toy.world Toy.fine ∅ [Normal " 6 "; Normal "CCO"] in
  let w' := emit [Print goodbye]
              (read_line (emit [Prompt choice_prompt] (menu tk w).2)) in
  stdin w = [Normal " 6 "; Normal "CCO"]
  /\ strip " 6 " = "6"
  /\ (while_true tk 3 (iteration tk) w = (Normal true, w')
      /\ stdin w' = [Normal "CCO"]
      /\ heap w' = heap w /\ files w' = files w).
Proof.
  split; [reflexivity|]. split; [reflexivity|].
  exact (exit_choice_ends_loop (Toy.toolkit Toy.fine) 2
           (Toy.world Toy.fine ∅ [Normal " 6 "; Normal "CCO"]) " 6 " [Normal "CCO"]
           eq_refl eq_refl).
Defined.

Lemma invalid_choice_asks_again_witness :
  let tk := Toy.toolkit Toy.fine in
  let w := Toy.world Toy.fine ∅ [Normal "7"; Normal "6"] in
  let w' :=
    emit [Print (Glyph.cross +:+ " Invalid choice. Please select 1-6.")]
      (read_line (emit [Prompt choice_prompt] (menu tk w).2)) in
  stdin w = [Normal "7"; Normal "6"]
  /\ in_list (strip "7") ["1"; "2"; "3"; "4"; "5"; "6"] = false
  /\ (while_true tk 3 (iteration tk) w = while_true tk 2 (iteration tk) w'
      /\ stdin w' = [Normal "6"]
      /\ heap w' = heap w /\ files w' = files w).
Proof.
  split; [reflexivity|]. split; [reflexivity|].
  exact (invalid_choice_asks_again (Toy.toolkit Toy.fine) 2
           (Toy.world Toy.fine ∅ [Normal "7"; Normal "6"]) "7" [Normal "6"]
           eq_refl eq_refl).
Defined.

Lemma empty_smiles_asks_again_witness :
  let tk := Toy.toolkit Toy.fine in
  let w := Toy.world Toy.fine ∅ [Normal "1"; Normal "   "; Normal "6"] in
  let w' :=
    emit [Print (Glyph.cross +:+ " Please enter a valid SMILES string")]
      (read_line
         (emit [Prompt smiles_prompt]
            (emit [Print (nl +:+ times "=" 40)]
               (read_line (emit [Prompt choice_prompt] (menu tk w).2))))) in
  stdin w = [Normal "1"; Normal "   "; Normal "6"]
  /\ in_list (strip "1") ["1"; "2"; "3"; "4"; "5"] = true
  /\ strip "   " = ""
  /\ (while_true tk 3 (iteration tk) w = while_true tk 2 (iteration tk) w'
      /\ stdin w' = [Normal "6"]
      /\ heap w' = heap w /\ files w' = files w).
Proof.
  split; [reflexivity|]. split; [reflexivity|]. split; [reflexivity|].
  exact (empty_smiles_asks_again (Toy.toolkit Toy.fine) 2
           (Toy.world Toy.fine ∅ [Normal "1"; Normal "   "; Normal "6"])
           "1" "   " [Normal "6"] eq_refl eq_refl eq_refl).
Defined.


(** ** A parser that raises *)

(** X18: when the parser itself raises an exception, convert_smiles prints
    "Conversion failed: " followed by its text and returns false, with no
    further toolkit call; a keyboard interrupt in the parser leaves the
    function. *)
Theorem parser_exception_is_reported tk smiles out fmt generate_3d size
    (w : World tk) e :
  tk_MolFromSmiles tk smiles = Raised e ->
  convert_smiles tk smiles out fmt generate_3d size w =
    match e with
    | Exception msg =>
        (Normal false,
         emit [Print ("Conversion failed: " +:+ msg)] (parse_called smiles fmt w))
    | KeyboardInterrupt => (Raised KeyboardInterrupt, parse_called smiles fmt w)
    end.
Proof. intros H. rewrite run_convert_smiles, H. by destruct e. Qed.

Lemma parser_exception_is_reported_witness :
  let tk := deaf_toolkit (Exception "bad input") in
  let w : World tk := mkWorld ∅ [] [] [] in
  tk_MolFromSmiles tk "CCO" = Raised (Exception "bad input")
  /\ convert_smiles tk "CCO" "out.pdb" "pdb" true 200 w =
       (Normal false,
        emit [Print ("Conversion failed: " +:+ "bad input")]
          (parse_called "CCO" "pdb" w)).
Proof.
  split; [reflexivity|].
  exact (parser_exception_is_reported (deaf_toolkit (Exception "bad input")) "CCO"
           "out.pdb" "pdb" true 200 (mkWorld ∅ [] [] []) (Exception "bad input")
           eq_refl).
Defined.
